(** * swissqr: validation, wire format and text layout of Swiss QR bills

    A shallow embedding of the Go package [swissqr] (validate.go,
    structured.go, the payload, serializer, character-set and Helvetica
    layout files) together with the properties its specification states.

    Modelling conventions.
    - A Go [string] is the list of the runes that [range] yields over it
      (only valid UTF-8 text is representable); [len] and byte slicing go
      through the UTF-8 encoding [bytes].
    - A [float64] is a binary64 value ([spec_float]): amounts, rates,
      glyph widths and line widths alike, with sums rounded to nearest,
      ties to even.
    - An [error] is one constructor per message of the source; a function
      that can abort with a run-time panic returns a [result].
    - [io.Writer] is a type class; [Buffer] is the instance that never
      fails. *)

From Stdlib Require Import ZArith Bool String Ascii List QArith Lia.
From Stdlib Require Import SpecFloat.
Import ListNotations.
Open Scope Z_scope.

(** ** Go strings *)

Definition rune := Z.
Definition byte := Z.
Definition gostring := list rune.

Definition RuneError : rune := 0xFFFD.

(** What [range] yields over a sequence of bytes: UTF-8 decoding, one
    [RuneError] per byte that starts no well-formed sequence. *)
Definition isCont (b : byte) : bool := (0x80 <=? b) && (b <? 0xC0).

Fixpoint runes_of_bytes (bs : list byte) : gostring :=
  match bs with
  | [] => []
  | b0 :: t0 =>
    if b0 <? 0x80 then b0 :: runes_of_bytes t0
    else match t0 with
    | [] => RuneError :: runes_of_bytes t0
    | b1 :: t1 =>
      if (0xC2 <=? b0) && (b0 <? 0xE0) && isCont b1
      then ((b0 - 0xC0) * 64 + (b1 - 0x80)) :: runes_of_bytes t1
      else match t1 with
      | [] => RuneError :: runes_of_bytes t0
      | b2 :: t2 =>
        let r3 := (b0 - 0xE0) * 4096 + (b1 - 0x80) * 64 + (b2 - 0x80) in
        if (0xE0 <=? b0) && (b0 <? 0xF0) && isCont b1 && isCont b2
           && (0x800 <=? r3) && negb ((0xD800 <=? r3) && (r3 <=? 0xDFFF))
        then r3 :: runes_of_bytes t2
        else match t2 with
        | [] => RuneError :: runes_of_bytes t0
        | b3 :: t3 =>
          let r4 := (b0 - 0xF0) * 262144 + (b1 - 0x80) * 4096
                    + (b2 - 0x80) * 64 + (b3 - 0x80) in
          if (0xF0 <=? b0) && (b0 <? 0xF8) && isCont b1 && isCont b2
             && isCont b3 && (0x10000 <=? r4) && (r4 <=? 0x10FFFF)
          then r4 :: runes_of_bytes t3
          else RuneError :: runes_of_bytes t0
        end
      end
    end
  end.

(** A string literal of the source. *)
Definition str (s : string) : gostring :=
  runes_of_bytes (map (fun a => Z.of_N (N_of_ascii a)) (list_ascii_of_string s)).

(** [string(r)]: the UTF-8 encoding of one rune. *)
Definition utf8_encode (r : rune) : list byte :=
  if (0 <=? r) && (r <? 0x80) then [r]
  else if (0x80 <=? r) && (r <? 0x800) then [0xC0 + r / 64; 0x80 + r mod 64]
  else if (0x10000 <=? r) && (r <=? 0x10FFFF) then
    [0xF0 + r / 262144; 0x80 + (r / 4096) mod 64; 0x80 + (r / 64) mod 64; 0x80 + r mod 64]
  else if (0x800 <=? r) && (r <? 0x10000) && negb ((0xD800 <=? r) && (r <=? 0xDFFF)) then
    [0xE0 + r / 4096; 0x80 + (r / 64) mod 64; 0x80 + r mod 64]
  else [0xEF; 0xBF; 0xBD].

Definition bytes (s : gostring) : list byte := flat_map utf8_encode s.

(** [len(s)]: the number of bytes. *)
Definition len (s : gostring) : Z := Z.of_nat (length (bytes s)).

(** [len([]rune(s))]. *)
Definition runeCount (s : gostring) : Z := Z.of_nat (length s).

(** [s[:n]]: [None] is the run-time panic "slice bounds out of range". *)
Definition sliceTo (s : gostring) (n : nat) : option (list byte) :=
  if (length (bytes s) <? n)%nat then None else Some (firstn n (bytes s)).

Definition bytes_eqb (a b : list byte) : bool :=
  if list_eq_dec Z.eq_dec a b then true else false.

(** [s == t] on strings. *)
Definition streq (a b : gostring) : bool :=
  if list_eq_dec Z.eq_dec a b then true else false.

Definition isEmpty (s : gostring) : bool :=
  match s with [] => true | _ => false end.

Definition CRLF : gostring := [13; 10].

(** ** Package strings *)
Module strings.

(** [strings.ContainsRune(s, r)]. *)
Definition ContainsRune (s : gostring) (r : rune) : bool :=
  existsb (Z.eqb r) s.

(** [strings.Join(elems, sep)]. *)
Fixpoint Join (elems : list gostring) (sep : gostring) : gostring :=
  match elems with
  | [] => []
  | e :: rest =>
    match rest with
    | [] => e
    | _ :: _ => e ++ sep ++ Join rest sep
    end
  end.

(** [unicode.IsSpace]. *)
Definition isSpace (r : rune) : bool :=
  ((9 <=? r) && (r <=? 13)) || (r =? 32) || (r =? 0x85) || (r =? 0xA0)
  || (r =? 0x1680) || ((0x2000 <=? r) && (r <=? 0x200A))
  || (r =? 0x2028) || (r =? 0x2029) || (r =? 0x202F) || (r =? 0x205F)
  || (r =? 0x3000).

(** [strings.Fields(s)]: the maximal runs of non-space runes, in order.
    [word] is the run being read. *)
Fixpoint fieldsFrom (word : gostring) (s : gostring) : list gostring :=
  match s with
  | [] => match word with [] => [] | _ :: _ => [word] end
  | r :: rest =>
    if isSpace r
    then match word with
         | [] => fieldsFrom [] rest
         | _ :: _ => word :: fieldsFrom [] rest
         end
    else fieldsFrom (word ++ [r]) rest
  end.

Definition Fields (s : gostring) : list gostring := fieldsFrom [] s.

End strings.

(** ** float64 *)

Definition float64 := spec_float.

Definition f64_prec : Z := 53.
Definition f64_emax : Z := 1024.

(** The binary64 value of the integer literal [n]. *)
Definition f64_of_Z (n : Z) : float64 :=
  binary_normalize f64_prec f64_emax n 0 false.

(** The binary64 value of the decimal literal [n / d] with [n] and [d]
    integers that binary64 holds exactly (7.7 is [f64_of_ratio 77 10]). *)
Definition f64_of_ratio (n d : Z) : float64 :=
  SFdiv f64_prec f64_emax (f64_of_Z n) (f64_of_Z d).

Definition f64_zero : float64 := S754_zero false.
Definition f64_posInf : float64 := S754_infinity false.

(** [x < y] and [x > y] on float64 (false when an operand is NaN). *)
Definition f64_lt (x y : float64) : bool := SFltb x y.
Definition f64_gt (x y : float64) : bool := SFltb y x.

(** [x <= y] on float64 (false when an operand is NaN). *)
Definition f64_le (x y : float64) : bool := SFleb x y.

(** [x + y] in float64: rounded to nearest, ties to even. *)
Definition f64_add (x y : float64) : float64 := SFadd f64_prec f64_emax x y.

(** ** Package fmt: the verbs the source uses *)
Module fmt.

Fixpoint digitsOf (fuel : nat) (n : Z) (acc : gostring) : gostring :=
  match fuel with
  | O => acc
  | S f =>
    let acc' := (48 + n mod 10) :: acc in
    if n <? 10 then acc' else digitsOf f (n / 10) acc'
  end.

(** Decimal digits of [n >= 0]. *)
Definition utoa (n : Z) : gostring :=
  digitsOf (S (Z.to_nat (Z.log2 n))) n [].

(** [%d]. *)
Definition itoa (n : Z) : gostring :=
  if n <? 0 then 45 :: utoa (- n) else utoa n.

(** [n] written with exactly two digits ([0 <= n < 100]). *)
Definition twoDigits (n : Z) : gostring := [48 + n / 10; 48 + n mod 10].

(** [m * 2^e * 100] rounded to the nearest integer, ties to even. *)
Definition roundCents (m e : Z) : Z :=
  if 0 <=? e then m * 2 ^ e * 100
  else
    let den := 2 ^ (- e) in
    let q := (m * 100) / den in
    let r := (m * 100) mod den in
    if den <? 2 * r then q + 1
    else if (2 * r =? den) && Z.odd q then q + 1
    else q.

Definition signOf (s : bool) : gostring := if s then [45] else [].

(** [fmt.Sprintf("%.2f", x)]. *)
Definition Sprintf_2f (x : float64) : gostring :=
  match x with
  | S754_nan => str "NaN"
  | S754_infinity s => if s then str "-Inf" else str "+Inf"
  | S754_zero s => signOf s ++ str "0.00"
  | S754_finite s m e =>
    let n := roundCents (Zpos m) e in
    signOf s ++ utoa (n / 100) ++ [46] ++ twoDigits (n mod 100)
  end.

(** *** Shortest decimal that reads back as the same binary64

    [x = m * 2^e] is [X / (4 * D)] with [X = 4 * m * 2^max(e,0)] and
    [D = 2^max(-e,0)]; the values that round to [x] lie between
    [(X - lo) / (4 * D)] and [(X + hi) / (4 * D)], bounds included when
    [m] is even. *)

Definition pow10 (k : Z) : Z := 10 ^ k.

(** [a * 10^p <= b] and [a * 10^p < b] for an exponent of either sign. *)
Definition scaledLe (a p b : Z) : bool :=
  if 0 <=? p then a * pow10 p <=? b else a <=? b * pow10 (- p).
Definition scaledLt (a p b : Z) : bool :=
  if 0 <=? p then a * pow10 p <? b else a <? b * pow10 (- p).

(** The least [dp >= from] with [X / D4 < 10^dp]. *)
Fixpoint decimalPoint (fuel : nat) (dp X D4 : Z) : Z :=
  match fuel with
  | O => dp
  | S f => if scaledLe D4 dp X then decimalPoint f (dp + 1) X D4 else dp
  end.

(** A value that is at most the decimal point of [X / D4], and close to
    it: from the binary logarithm, with log10 2 taken as 0.30102. *)
Definition decimalPointBelow (X D4 : Z) : Z :=
  (Z.log2 X - Z.log2 D4 - 1) * 30102 / 100000 - 1.

Record decimal := { digits : Z; nd : Z; dp : Z }.

(** Try [n] digits: [c] is [x] cut after [n] digits, [c + 1] the next
    [n]-digit value. *)
Definition tryDigits (X D4 lo hi : Z) (incl : bool) (dp0 n : Z) : option Z :=
  let p := dp0 - n in
  let c := if 0 <=? p then X / (D4 * pow10 p) else (X * pow10 (- p)) / D4 in
  let above (a b : Z) := if incl then scaledLe b 0 a else scaledLt b 0 a in
  let cu := if 0 <=? p then c * pow10 p * D4 else c * D4 in
  let cu1 := if 0 <=? p then (c + 1) * pow10 p * D4 else (c + 1) * D4 in
  let sc (v : Z) := if 0 <=? p then v else v * pow10 (- p) in
  let okdown := above cu (sc (X - lo)) in
  let okup := above (sc (X + hi)) cu1 in
  let down := sc X - cu in
  let up := cu1 - sc X in
  match okdown, okup with
  | true, true =>
    Some (if down <? up then c else if up <? down then c + 1
          else if Z.even c then c else c + 1)
  | true, false => Some c
  | false, true => Some (c + 1)
  | false, false => None
  end.

Fixpoint shortestFrom (fuel : nat) (X D4 lo hi : Z) (incl : bool) (dp0 n : Z)
  : Z * Z :=
  match fuel with
  | O => (X, n)
  | S f =>
    match tryDigits X D4 lo hi incl dp0 n with
    | Some c => (c, n)
    | None => shortestFrom f X D4 lo hi incl dp0 (n + 1)
    end
  end.

Fixpoint stripZeros (fuel : nat) (c n : Z) : Z * Z :=
  match fuel with
  | O => (c, n)
  | S f => if (c mod 10 =? 0) && (1 <? n) then stripZeros f (c / 10) (n - 1)
           else (c, n)
  end.

(** The shortest digits of the finite positive [m * 2^e]. *)
Definition shortest (m e : Z) : decimal :=
  let G := 2 ^ Z.max e 0 in
  let D := 2 ^ Z.max (- e) 0 in
  let X := 4 * m * G in
  let D4 := 4 * D in
  let hi := 2 * G in
  let lo := if (m =? 2 ^ 52) && (-1074 <? e) then G else 2 * G in
  let dp0 := decimalPoint 16 (decimalPointBelow X D4) X D4 in
  let '(c, n) := shortestFrom 20 X D4 lo hi (Z.even m) dp0 1 in
  let dp1 := if c =? pow10 n then dp0 + 1 else dp0 in
  let '(c', n') := stripZeros 40 c (if c =? pow10 n then n + 1 else n) in
  {| digits := c'; nd := n'; dp := dp1 |}.

(** Digit [i] (from the left, 0-based) of a decimal, ['0'] outside. *)
Definition digitAt (d : decimal) (i : Z) : rune :=
  if (0 <=? i) && (i <? nd d) then 48 + (digits d / pow10 (nd d - 1 - i)) mod 10
  else 48.

Definition digitsRange (d : decimal) (from count : Z) : gostring :=
  map (fun i => digitAt d (from + Z.of_nat i)) (seq 0 (Z.to_nat count)).

(** [%e] with [prec] digits after the point. *)
Definition fmtE (neg : bool) (d : decimal) (prec : Z) : gostring :=
  let exp := if nd d =? 0 then 0 else dp d - 1 in
  signOf neg ++ [digitAt d 0]
  ++ (if 0 <? prec then 46 :: digitsRange d 1 prec else [])
  ++ [101] ++ (if exp <? 0 then [45] else [43])
  ++ (if Z.abs exp <? 10 then 48 :: utoa (Z.abs exp) else utoa (Z.abs exp)).

(** [%f] with [prec] digits after the point. *)
Definition fmtF (neg : bool) (d : decimal) (prec : Z) : gostring :=
  signOf neg
  ++ (if 0 <? dp d then digitsRange d 0 (dp d) else [48])
  ++ (if 0 <? prec then 46 :: digitsRange d (dp d) prec else []).

(** [%g] of the shortest digits. *)
Definition fmtG (neg : bool) (d : decimal) : gostring :=
  let eprec := 6 in
  let exp := dp d - 1 in
  if (exp <? -4) || (eprec <=? exp) then fmtE neg d (nd d - 1)
  else fmtF neg d (Z.max (nd d - dp d) 0).

(** [fmt.Sprintf("%g", x)]. *)
Definition Sprintf_g (x : float64) : gostring :=
  match x with
  | S754_nan => str "NaN"
  | S754_infinity s => if s then str "-Inf" else str "+Inf"
  | S754_zero s => fmtG s {| digits := 0; nd := 0; dp := 0 |}
  | S754_finite s m e => fmtG s (shortest (Zpos m) e)
  end.

End fmt.

(** ** Package time: instants in UTC *)
Module time.

(** An instant: seconds and nanoseconds since January 1, year 1,
    00:00:00 UTC. *)
Record Time := { sec : Z; nsec : Z }.

Definition zero : Time := {| sec := 0; nsec := 0 |}.

Definition IsZero (t : Time) : bool := (sec t =? 0) && (nsec t =? 0).

(** [t.After(u)]. *)
Definition After (t u : Time) : bool :=
  (sec u <? sec t) || ((sec t =? sec u) && (nsec u <? nsec t)).

Definition isLeap (year : Z) : bool :=
  (year mod 4 =? 0) && (negb (year mod 100 =? 0) || (year mod 400 =? 0)).

(** Days before the first of each month in a non-leap year. *)
Definition daysBefore : list Z :=
  [0; 31; 59; 90; 120; 151; 181; 212; 243; 273; 304; 334].

(** Days from January 1 of year 1 to January 1 of [year]. *)
Definition daysSinceEpoch (year : Z) : Z :=
  let y := year - 1 in
  365 * y + y / 4 - y / 100 + y / 400.

(** [time.Date(year, month, day, 0, 0, 0, 0, time.UTC)]: a month outside
    1..12 overflows into the year, a day outside the month into the
    following or preceding days. *)
Definition Date (year month day : Z) : Time :=
  let m := (month - 1) mod 12 in
  let y := year + (month - 1) / 12 in
  let d := daysSinceEpoch y + nth (Z.to_nat m) daysBefore 0
           + (if isLeap y && (2 <=? m) then 1 else 0) + (day - 1) in
  {| sec := d * 86400; nsec := 0 |}.

(** The civil date (year, month, day) of an instant. *)
Definition civil (t : Time) : Z * Z * Z :=
  let z := sec t / 86400 + 306 in
  let era := z / 146097 in
  let doe := z mod 146097 in
  let yoe := (doe - doe / 1460 + doe / 36524 - doe / 146096) / 365 in
  let doy := doe - (365 * yoe + yoe / 4 - yoe / 100) in
  let mp := (5 * doy + 2) / 153 in
  let d := doy - (153 * mp + 2) / 5 + 1 in
  let m := if mp <? 10 then mp + 3 else mp - 9 in
  let y := yoe + era * 400 + (if m <=? 2 then 1 else 0) in
  (y, m, d).

(** [t.Format("060102")]: two-digit year, month and day. *)
Definition Format_060102 (t : Time) : gostring :=
  let '(y, m, d) := civil t in
  fmt.twoDigits (Z.abs y mod 100) ++ fmt.twoDigits m ++ fmt.twoDigits d.

End time.

(** ** Errors, panics and writers *)

(** One constructor per error message of the source, with the values the
    message is formatted from. *)
Inductive error :=
| ErrRuneNotAllowed (r : rune) (s : gostring)
    (* "Rune %#U not allowed in string: %v" *)
| ErrNoCreditorName            (* "No creditor name specified." *)
| ErrUltimateCreditor          (* "UltimateCreditor is currently not supported." *)
| ErrQRReferenceRequired (printCode : gostring)
    (* "QR Reference number required for QR-IBAN: %v" *)
| ErrQRReferenceNotAllowed (printCode : gostring)
    (* "QR Reference not allowed for IBAN: %v" *)
| ErrNoAccount                 (* "No account specified" *)
| ErrOnlyCHAndLI (printCode : gostring)
    (* "Only CH and LI accounts allowed: %v" *)
| ErrNameMissing               (* "Name must be specified." *)
| ErrNameTooLong (name : gostring)
    (* "Maximum name length is 70 characters: %v" *)
| ErrCountryCodeMissing (name : gostring)
    (* "Country code must be specified for name: %v" *)
| ErrCountryCodeTooLong (code : gostring)
    (* "Country should be given as two-letter code: %v" *)
| ErrInvalidCountryCode (code : gostring)   (* "Invalid country code: %v" *)
| ErrUnsupportedAddressType (type : gostring)
    (* "Unsupported address type: %T" *)
| ErrAddressLine2Missing (line1 line2 : gostring)
    (* "Address line 2 must be set for address: %v" *)
| ErrAddressLineTooLong (line : gostring)
    (* "Maximum address line length is 70 characters: %v" *)
| ErrPostCodeAndTownMissing (street number postCode town : gostring)
    (* "Must specify post code and town in address: %v" *)
| ErrStreetNameTooLong (s : gostring)
    (* "Maximum street name length is 70 characters: %v" *)
| ErrBuildingNumberTooLong (s : gostring)
    (* "Maximum building number length is 16 characters: %v" *)
| ErrPostCodeTooLong (s : gostring)
    (* "Maximum post code length is 16 characters: %v" *)
| ErrTownNameTooLong (s : gostring)
    (* "Maximum town name length is 35 characters: %v" *)
| ErrCurrency (currency : gostring)   (* "Currency must be CHF or EUR: %v" *)
| ErrAmountNegative (amount : float64) (* "Amount cannot be negative: %v" *)
| ErrAmountTooLarge (amount : float64) (* "Amount too large: %v" *)
| ErrUnknownReferenceType (type : gostring)
    (* "Unknown reference type: %T" *)
| ErrCombinedTooLong (s : gostring)
    (* "Maximum combined length is 140: %v" *)
| ErrTooManyProcedures (vec : list (gostring * gostring))
    (* "Maximum two alternate payment schemes allowed: %v" *)
| ErrNoLabel (label procedure : gostring)   (* "No label specified: %v" *)
| ErrNoProcedure (label procedure : gostring)
    (* "No procedure specified: %v" *)
| ErrProcedureTooLong (label procedure : gostring)
    (* "Maximum field length is 100 characters: %v" *)
| ErrInvoiceEndDate (t : time.Time)
    (* "Invoice date may not have an end date: %v" *)
| ErrVATNumberDigits (s : gostring)
    (* "VAT number may only contain digits 0-9: %v" *)
| ErrEndNotAfterStart (start finish : time.Time)
    (* "End date must come after start date: %v versus %v" *)
| ErrVATAmountNegative (rate amount : float64)
    (* "VAT amount may not be negative: %v" *)
| ErrVATRateNegative (rate amount : float64)
    (* "VAT tax rate may not be negative: %v" *)
| ErrDiscountNegative (discount : float64) (days : Z)
    (* "Discount may not be negative: %v" *)
| ErrDaysNegative (discount : float64) (days : Z)
    (* "Number of days may not be negative: %v" *)
| ErrOther (reason : gostring).
    (* an error of another package: the io.Writer, go-iban *)

(** The run-time panics the source can raise. *)
Inductive panic :=
| PanicSliceBounds (high length : Z)   (* slice bounds out of range [:high] *)
| PanicIndexOutOfRange (index length : Z)
| PanicNilDereference
| PanicError (err : error).              (* panic(err) *)

(** The outcome of a call that may panic. *)
Inductive result (A : Type) :=
| Returns (a : A)
| Panics (p : panic).
Arguments Returns {A} a.
Arguments Panics {A} p.

Definition bind {A B : Type} (r : result A) (k : A -> result B) : result B :=
  match r with
  | Returns a => k a
  | Panics p => Panics p
  end.

(** [io.Writer] with [io.WriteString(w, s)]: the writer after the call and
    the error it reported. *)
Class Writer (W : Type) := WriteString : W -> gostring -> W * option error.

(** A writer that appends to memory and never fails. *)
Definition Buffer := gostring.
#[export] Instance Buffer_Writer : Writer Buffer :=
  fun b s => (b ++ s, None).

(** [if err := c; err != nil { return err }] for a call that may panic. *)
Notation "'try' w' '<-' c 'in' k" :=
  (bind c (fun out => match out with
                      | (w', Some e) => Returns (w', Some e)
                      | (w', None) => k
                      end))
  (at level 10, w' name, c at level 100, k at level 200).

(** [io.WriteString(w, s)] with the result dropped. *)
Notation "'write' w' '<-' w ',' s 'in' k" :=
  (let w' := fst (WriteString w s) in k)
  (at level 10, w' name, w at level 9, s at level 100, k at level 200).

(** [if err := c; err != nil { return err }] for validators. *)
Notation "'check' c 'in' k" :=
  (match c with Some e => Some e | None => k end)
  (at level 10, c at level 100, k at level 200).

(** ** Character set *)

(** Only these runes are allowed on payment slips in Switzerland. *)
Definition validRunes : gostring :=
  str "abcdefghijklmnopqrstuvwxyz"
  ++ str "ABCDEFGHIJKLMNOPQRSTUVWXYZ0123456789"
  ++ str ".,:'+-/()? !" ++ [34] ++ str "#%&*;<>÷=@_$£[]{}\`´~"
  ++ str "àáâäçèéêëìíîïñòóôöùúûüýßÀÁÂÄÇÈÉÊËÌÍÎÏÒÓÔÖÙÚÛÜÑ".

(** The loop of [ValidateCharacterSet] over the runes still to read. *)
Fixpoint validateRunes (rest s : gostring) : option error :=
  match rest with
  | [] => None
  | r :: rest' =>
    if negb (strings.ContainsRune validRunes r)
    then Some (ErrRuneNotAllowed r s)
    else validateRunes rest' s
  end.

Definition ValidateCharacterSet (s : gostring) : option error :=
  validateRunes s s.

(** ** Country codes *)

Definition countryCodes : list (gostring * bool) :=
  map (fun c => (str c, true))
  ["AD"; "AE"; "AF"; "AG"; "AI"; "AL"; "AM"; "AO"; "AQ"; "AR"; "AS"; "AT";
   "AU"; "AW"; "AX"; "AZ"; "BA"; "BB"; "BD"; "BE"; "BF"; "BG"; "BH"; "BI";
   "BJ"; "BL"; "BM"; "BN"; "BO"; "BQ"; "BR"; "BS"; "BT"; "BV"; "BW"; "BY";
   "BZ"; "CA"; "CC"; "CD"; "CF"; "CG"; "CH"; "CI"; "CK"; "CL"; "CM"; "CN";
   "CO"; "CR"; "CU"; "CV"; "CW"; "CX"; "CY"; "CZ"; "DE"; "DJ"; "DK"; "DM";
   "DO"; "DZ"; "EC"; "EE"; "EG"; "EH"; "ER"; "ES"; "ET"; "FI"; "FJ"; "FK";
   "FM"; "FO"; "FR"; "GA"; "GB"; "GD"; "GE"; "GF"; "GG"; "GH"; "GI"; "GL";
   "GM"; "GN"; "GP"; "GQ"; "GR"; "GS"; "GT"; "GU"; "GW"; "GY"; "HK"; "HM";
   "HN"; "HR"; "HT"; "HU"; "ID"; "IE"; "IL"; "IM"; "IN"; "IO"; "IQ"; "IR";
   "IS"; "IT"; "JE"; "JM"; "JO"; "JP"; "KE"; "KG"; "KH"; "KI"; "KM"; "KN";
   "KP"; "KR"; "KW"; "KY"; "KZ"; "LA"; "LB"; "LC"; "LI"; "LK"; "LR"; "LS";
   "LT"; "LU"; "LV"; "LY"; "MA"; "MC"; "MD"; "ME"; "MF"; "MG"; "MH"; "MK";
   "ML"; "MM"; "MN"; "MO"; "MP"; "MQ"; "MR"; "MS"; "MT"; "MU"; "MV"; "MW";
   "MX"; "MY"; "MZ"; "NA"; "NC"; "NE"; "NF"; "NG"; "NI"; "NL"; "NO"; "NP";
   "NR"; "NU"; "NZ"; "OM"; "PA"; "PE"; "PF"; "PG"; "PH"; "PK"; "PL"; "PM";
   "PN"; "PR"; "PS"; "PT"; "PW"; "PY"; "QA"; "RE"; "RO"; "RS"; "RU"; "RW";
   "SA"; "SB"; "SC"; "SD"; "SE"; "SG"; "SH"; "SI"; "SJ"; "SK"; "SL"; "SM";
   "SN"; "SO"; "SR"; "SS"; "ST"; "SV"; "SX"; "SY"; "SZ"; "TC"; "TD"; "TF";
   "TG"; "TH"; "TJ"; "TK"; "TL"; "TM"; "TN"; "TO"; "TR"; "TT"; "TV"; "TW";
   "TZ"; "UA"; "UG"; "UM"; "US"; "UY"; "UZ"; "VA"; "VC"; "VE"; "VG"; "VI";
   "VN"; "VU"; "WF"; "WS"; "YE"; "YT"; "ZA"; "ZM"; "ZW"]%string.

(** [_, found := countryCodes[code]]. *)
Definition countryCodeFound (code : gostring) : bool :=
  existsb (fun kv => streq (fst kv) code) countryCodes.

(** ** Structured bill information (structured.go) *)

(** [dates]: either one date or a start date with an end date. *)
Module dates.

Record t := { Date : time.Time; End : time.Time }.

Definition ToString (d : t) : gostring :=
  if time.IsZero (Date d) then []
  else if time.IsZero (End d) then time.Format_060102 (Date d)
  else time.Format_060102 (Date d) ++ time.Format_060102 (End d).

End dates.

(** [OneDate(year, month, day)]. *)
Definition OneDate (year month day : Z) : dates.t :=
  {| dates.Date := time.Date year month day; dates.End := time.zero |}.

(** [StartAndEndDate(...)]. *)
Definition StartAndEndDate (startYear startMonth startDay
                            endYear endMonth endDay : Z) : dates.t :=
  {| dates.Date := time.Date startYear startMonth startDay;
     dates.End := time.Date endYear endMonth endDay |}.

Module TaxRate.
Record t := { RatePercent : float64; Amount : float64 }.
End TaxRate.

Module TaxRates.

Definition t := list TaxRate.t.

Definition field (rate : TaxRate.t) : gostring :=
  if f64_gt (TaxRate.Amount rate) f64_zero
  then fmt.Sprintf_g (TaxRate.RatePercent rate) ++ [58]
       ++ fmt.Sprintf_g (TaxRate.Amount rate)
  else fmt.Sprintf_g (TaxRate.RatePercent rate).

Definition ToString (rates : t) : gostring :=
  strings.Join (map field rates) [59].

(** The loop of [BillInformation.Validate] over a list of rates. *)
Fixpoint Validate (rates : t) : option error :=
  match rates with
  | [] => None
  | rate :: rest =>
    if f64_lt (TaxRate.Amount rate) f64_zero
    then Some (ErrVATAmountNegative (TaxRate.RatePercent rate) (TaxRate.Amount rate))
    else if f64_lt (TaxRate.RatePercent rate) f64_zero
    then Some (ErrVATRateNegative (TaxRate.RatePercent rate) (TaxRate.Amount rate))
    else Validate rest
  end.

End TaxRates.

Module PaymentCondition.
Record t := { DiscountPercent : float64; NumberOfDays : Z }.
End PaymentCondition.

Module PaymentConditions.

Definition t := list PaymentCondition.t.

Definition field (cond : PaymentCondition.t) : gostring :=
  fmt.Sprintf_g (PaymentCondition.DiscountPercent cond) ++ [58]
  ++ fmt.itoa (PaymentCondition.NumberOfDays cond).

Definition ToString (c : t) : gostring :=
  strings.Join (map field c) [59].

(** The loop of [BillInformation.Validate] over the conditions. *)
Fixpoint Validate (c : t) : option error :=
  match c with
  | [] => None
  | condition :: rest =>
    if f64_lt (PaymentCondition.DiscountPercent condition) f64_zero
    then Some (ErrDiscountNegative (PaymentCondition.DiscountPercent condition)
                                   (PaymentCondition.NumberOfDays condition))
    else if PaymentCondition.NumberOfDays condition <? 0
    then Some (ErrDaysNegative (PaymentCondition.DiscountPercent condition)
                               (PaymentCondition.NumberOfDays condition))
    else Validate rest
  end.

End PaymentConditions.

Module BillInformation.

Record t := {
  InvoiceNumber : gostring;
  InvoiceDate : dates.t;
  CustomerReference : gostring;
  VATNumber : gostring;
  VATDates : dates.t;
  VATRates : TaxRates.t;
  VATImportTaxRates : TaxRates.t;
  Conditions : PaymentConditions.t
}.

(** [regexp.MatchString("^[0-9]*$", s)]. *)
Definition onlyDigits (s : gostring) : bool :=
  forallb (fun r => (48 <=? r) && (r <=? 57)) s.

Definition Validate (bi : t) : option error :=
  check ValidateCharacterSet (InvoiceNumber bi) in
  if negb (time.IsZero (dates.End (InvoiceDate bi)))
  then Some (ErrInvoiceEndDate (dates.End (InvoiceDate bi)))
  else
  check ValidateCharacterSet (CustomerReference bi) in
  if negb (onlyDigits (VATNumber bi))
  then Some (ErrVATNumberDigits (VATNumber bi))
  else
  if negb (time.IsZero (dates.Date (VATDates bi)))
     && negb (time.IsZero (dates.End (VATDates bi)))
     && negb (time.After (dates.End (VATDates bi)) (dates.Date (VATDates bi)))
  then Some (ErrEndNotAfterStart (dates.Date (VATDates bi)) (dates.End (VATDates bi)))
  else
  check TaxRates.Validate (VATRates bi) in
  check TaxRates.Validate (VATImportTaxRates bi) in
  check PaymentConditions.Validate (Conditions bi) in
  None.

(** [if s != "" { result = result + tag + s }]. *)
Definition segment (tag : string) (s : gostring) (result : gostring) : gostring :=
  if negb (isEmpty s) then result ++ str tag ++ s else result.

Definition ToString (bi : t) : gostring :=
  let result := [] in
  let result := segment "/10/" (InvoiceNumber bi) result in
  let result := segment "/11/" (dates.ToString (InvoiceDate bi)) result in
  let result := segment "/20/" (CustomerReference bi) result in
  let result := segment "/30/" (VATNumber bi) result in
  let result := segment "/31/" (dates.ToString (VATDates bi)) result in
  let result := segment "/32/" (TaxRates.ToString (VATRates bi)) result in
  let result := segment "/33/" (TaxRates.ToString (VATImportTaxRates bi)) result in
  let result := segment "/40/" (PaymentConditions.ToString (Conditions bi)) result in
  if negb (isEmpty result) then str "//S1" ++ result else result.

(** [BillInformation{}]. *)
Definition empty : t :=
  {| InvoiceNumber := []; InvoiceDate := {| dates.Date := time.zero; dates.End := time.zero |};
     CustomerReference := []; VATNumber := [];
     VATDates := {| dates.Date := time.zero; dates.End := time.zero |};
     VATRates := []; VATImportTaxRates := []; Conditions := [] |}.

End BillInformation.

(** ** The payload and its parts (payload, validate and serialize files) *)

Definition CHF : gostring := str "CHF".
Definition EUR : gostring := str "EUR".

(** [iban.IBAN] of the package go-iban: the fields the source reads. *)
Module IBAN.
Record t := {
  Code : gostring;
  PrintCode : gostring;
  CountryCode : gostring;
  CheckDigits : gostring;
  BBAN : gostring
}.
End IBAN.

Module AccountNumber.

(** [IBAN *iban.IBAN]: [None] is the nil pointer. *)
Record t := { IBAN : option IBAN.t }.

Definition Validate (a : t) : option error :=
  match IBAN a with
  | None => Some ErrNoAccount
  | Some iban =>
    if negb (streq (IBAN.CountryCode iban) (str "CH"))
       && negb (streq (IBAN.CountryCode iban) (str "LI"))
    then Some (ErrOnlyCHAndLI (IBAN.PrintCode iban))
    else None
  end.

Definition Serialize {W} `{Writer W} (a : t) (w : W) : result (W * option error) :=
  match IBAN a with
  | None => Panics PanicNilDereference
  | Some iban => Returns (WriteString w (IBAN.Code iban))
  end.

End AccountNumber.

Module CombinedAddress.

Record t := { AddressLine1 : gostring; AddressLine2 : gostring }.

Definition Validate (ca : t) : option error :=
  if isEmpty (AddressLine2 ca)
  then Some (ErrAddressLine2Missing (AddressLine1 ca) (AddressLine2 ca))
  else
  check ValidateCharacterSet (AddressLine1 ca) in
  check ValidateCharacterSet (AddressLine2 ca) in
  if 70 <? len (AddressLine1 ca) then Some (ErrAddressLineTooLong (AddressLine1 ca))
  else if 70 <? len (AddressLine2 ca) then Some (ErrAddressLineTooLong (AddressLine2 ca))
  else None.

Definition Serialize {W} `{Writer W} (ca : t) (name : gostring) (w : W)
  : W * option error :=
  WriteString w (strings.Join
    [str "K"; name; AddressLine1 ca; AddressLine2 ca; []; []] CRLF).

End CombinedAddress.

Module StructuredAddress.

Record t := {
  StreetName : gostring;
  BuildingNumber : gostring;
  PostCode : gostring;
  TownName : gostring
}.

Definition Validate (sa : t) : option error :=
  if isEmpty (PostCode sa) || isEmpty (TownName sa)
  then Some (ErrPostCodeAndTownMissing (StreetName sa) (BuildingNumber sa)
                                       (PostCode sa) (TownName sa))
  else
  check ValidateCharacterSet (StreetName sa) in
  check ValidateCharacterSet (BuildingNumber sa) in
  check ValidateCharacterSet (PostCode sa) in
  check ValidateCharacterSet (TownName sa) in
  if 70 <? len (StreetName sa) then Some (ErrStreetNameTooLong (StreetName sa))
  else if 16 <? len (BuildingNumber sa) then Some (ErrBuildingNumberTooLong (BuildingNumber sa))
  else if 16 <? len (PostCode sa) then Some (ErrPostCodeTooLong (PostCode sa))
  else if 35 <? len (TownName sa) then Some (ErrTownNameTooLong (TownName sa))
  else None.

Definition Serialize {W} `{Writer W} (sa : t) (name : gostring) (w : W)
  : W * option error :=
  WriteString w (strings.Join
    [str "S"; name; StreetName sa; BuildingNumber sa; PostCode sa; TownName sa] CRLF).

End StructuredAddress.

(** A value of the interface [qrAddress]: nil, one of the two address
    types of the package, or a value of some other type that implements
    the interface (named by its type). *)
Inductive qrAddress :=
| NoAddress
| Combined (ca : CombinedAddress.t)
| Structured (sa : StructuredAddress.t)
| OtherAddress (type : gostring).

Module Entity.

Record t := { Name : gostring; Address : qrAddress; CountryCode : gostring }.

Definition addressIsNil (a : qrAddress) : bool :=
  match a with NoAddress => true | _ => false end.

Definition Validate (e : t) : option error :=
  (* Empty record is allowed. *)
  if isEmpty (Name e) && addressIsNil (Address e) && isEmpty (CountryCode e)
  then None
  else
  (* Name is mandatory for non-empty records. *)
  if isEmpty (Name e) then Some ErrNameMissing
  else if 70 <? len (Name e) then Some (ErrNameTooLong (Name e))
  else
  check ValidateCharacterSet (Name e) in
  (* Country code is mandatory. *)
  if isEmpty (CountryCode e) then Some (ErrCountryCodeMissing (Name e))
  else if 2 <? runeCount (CountryCode e) then Some (ErrCountryCodeTooLong (CountryCode e))
  else if negb (countryCodeFound (CountryCode e))
  then Some (ErrInvalidCountryCode (CountryCode e))
  else
  (* Check address type and validate recursively. *)
  match Address e with
  | Combined ca => CombinedAddress.Validate ca
  | Structured sa => StructuredAddress.Validate sa
  | NoAddress => Some (ErrUnsupportedAddressType (str "<nil>"))
  | OtherAddress type => Some (ErrUnsupportedAddressType type)
  end.

(** [e.Address.Serialize(e.Name, w)]: a method call on the nil interface
    panics; of a foreign address type nothing is known, it is taken to
    write nothing, as the test double of the package does. *)
Definition serializeAddress {W} `{Writer W} (a : qrAddress) (name : gostring) (w : W)
  : result (W * option error) :=
  match a with
  | NoAddress => Panics PanicNilDereference
  | Combined ca => Returns (CombinedAddress.Serialize ca name w)
  | Structured sa => Returns (StructuredAddress.Serialize sa name w)
  | OtherAddress _ => Returns (w, None)
  end.

Definition Serialize {W} `{Writer W} (e : t) (w : W) : result (W * option error) :=
  if isEmpty (Name e)
  then Returns (WriteString w (CRLF ++ CRLF ++ CRLF ++ CRLF ++ CRLF ++ CRLF))
  else
  try w <- serializeAddress (Address e) (Name e) w in
  Returns (WriteString w (CRLF ++ CountryCode e)).

Definition empty : t := {| Name := []; Address := NoAddress; CountryCode := [] |}.

End Entity.

Module PaymentAmount.

Record t := { Amount : float64; Currency : gostring }.

Definition Validate (pa : t) : option error :=
  if negb (streq (Currency pa) CHF) && negb (streq (Currency pa) EUR)
  then Some (ErrCurrency (Currency pa))
  else if f64_lt (Amount pa) f64_zero then Some (ErrAmountNegative (Amount pa))
  else if 12 <? len (fmt.Sprintf_2f (Amount pa)) then Some (ErrAmountTooLarge (Amount pa))
  else None.

Definition Serialize {W} `{Writer W} (pa : t) (w : W) : W * option error :=
  let s := [] in
  let s := if f64_gt (Amount pa) f64_zero then s ++ fmt.Sprintf_2f (Amount pa) else s in
  let s := s ++ CRLF ++ Currency pa in
  WriteString w s.

End PaymentAmount.

(** A value of the interface [structref.Printer]: nil, a pointer to one of
    the two reference types of the package structref (of which only
    [DigitalFormat()] is read), or a value of some other type. *)
Inductive Printer :=
| NoReference
| ReferenceNumber (digitalFormat : gostring)     (* *structref.ReferenceNumber *)
| CreditorReference (digitalFormat : gostring)   (* *structref.CreditorReference *)
| OtherPrinter (type : gostring).

Module PaymentReference.

Record t := { Number : Printer }.

Definition Validate (r : t) : option error :=
  match Number r with
  | NoReference | CreditorReference _ | ReferenceNumber _ => None
  | OtherPrinter type => Some (ErrUnknownReferenceType type)
  end.

Definition Serialize {W} `{Writer W} (pr : t) (w : W) : W * option error :=
  match Number pr with
  | ReferenceNumber digital => WriteString w (str "QRR" ++ CRLF ++ digital)
  | CreditorReference digital => WriteString w (str "SCOR" ++ CRLF ++ digital)
  | NoReference => WriteString w (str "NON" ++ CRLF)
  | OtherPrinter _ => (w, None)
  end.

End PaymentReference.

Module PaymentInformation.

Record t := { UnstructuredMessage : gostring; StructuredMessage : BillInformation.t }.

Definition Validate (pi : t) : option error :=
  check ValidateCharacterSet (UnstructuredMessage pi) in
  check BillInformation.Validate (StructuredMessage pi) in
  let s := UnstructuredMessage pi ++ BillInformation.ToString (StructuredMessage pi) in
  if 140 <? len s then Some (ErrCombinedTooLong s) else None.

Definition Serialize {W} `{Writer W} (pi : t) (w : W) : W * option error :=
  let s := UnstructuredMessage pi ++ CRLF ++ str "EPD" ++ CRLF
           ++ BillInformation.ToString (StructuredMessage pi) in
  WriteString w s.

End PaymentInformation.

Module AlternativeProcedure.
Record t := { Label : gostring; Procedure : gostring }.
End AlternativeProcedure.

Module AlternativeProcedures.

Definition t := list AlternativeProcedure.t.

Definition pair (ap : AlternativeProcedure.t) : gostring * gostring :=
  (AlternativeProcedure.Label ap, AlternativeProcedure.Procedure ap).

(** The loop of [Validate] over the entries. *)
Fixpoint validateEach (vec : t) : option error :=
  match vec with
  | [] => None
  | ap :: rest =>
    check ValidateCharacterSet (AlternativeProcedure.Label ap) in
    check ValidateCharacterSet (AlternativeProcedure.Procedure ap) in
    if isEmpty (AlternativeProcedure.Label ap)
    then Some (ErrNoLabel (fst (pair ap)) (snd (pair ap)))
    else if isEmpty (AlternativeProcedure.Procedure ap)
    then Some (ErrNoProcedure (fst (pair ap)) (snd (pair ap)))
    else if 100 <? len (AlternativeProcedure.Procedure ap)
    then Some (ErrProcedureTooLong (fst (pair ap)) (snd (pair ap)))
    else validateEach rest
  end.

Definition Validate (vec : t) : option error :=
  if (2 <? length vec)%nat then Some (ErrTooManyProcedures (map pair vec))
  else validateEach vec.

(** [apJoin[i] = s]: [None] when [i] is out of range. *)
Fixpoint setAt (apJoin : list gostring) (i : nat) (s : gostring)
  : option (list gostring) :=
  match apJoin, i with
  | [], _ => None
  | _ :: rest, O => Some (s :: rest)
  | x :: rest, S i' =>
    match setAt rest i' s with
    | Some rest' => Some (x :: rest')
    | None => None
    end
  end.

(** The loop [for i, ap := range vec { apJoin[i] = ap.Procedure }] from
    index [i] on. *)
Fixpoint fill (vec : t) (i : nat) (apJoin : list gostring)
  : result (list gostring) :=
  match vec with
  | [] => Returns apJoin
  | ap :: rest =>
    match setAt apJoin i (AlternativeProcedure.Procedure ap) with
    | None => Panics (PanicIndexOutOfRange (Z.of_nat i) (Z.of_nat (length apJoin)))
    | Some apJoin' => fill rest (S i) apJoin'
    end
  end.

Definition Serialize {W} `{Writer W} (vec : t) (w : W) : result (W * option error) :=
  bind (fill vec 0 [[]; []]) (fun apJoin =>
  Returns (WriteString w (strings.Join apJoin CRLF))).

End AlternativeProcedures.

Module Payload.

Record t := {
  Account : AccountNumber.t;
  Creditor : Entity.t;
  UltimateCreditor : Entity.t;
  CurrencyAmount : PaymentAmount.t;
  UltimateDebtor : Entity.t;
  Reference : PaymentReference.t;
  AdditionalInformation : PaymentInformation.t;
  AlternativeProcedureParameters : AlternativeProcedures.t
}.

(** [_, ok := p.Reference.Number.( *structref.ReferenceNumber)]. *)
Definition isReferenceNumber (n : Printer) : bool :=
  match n with ReferenceNumber _ => true | _ => false end.

Definition isNil (n : Printer) : bool :=
  match n with NoReference => true | _ => false end.

(** [p.Account.IBAN.BBAN[:2] == prefix]. *)
Definition bbanPrefixIs (iban : IBAN.t) (prefix : string) : result bool :=
  match sliceTo (IBAN.BBAN iban) 2 with
  | None => Panics (PanicSliceBounds 2 (len (IBAN.BBAN iban)))
  | Some b => Returns (bytes_eqb b (bytes (str prefix)))
  end.

(** The rule that ties the reference to the kind of account: the last
    statement of [Validate]. *)
Definition validateReferenceForAccount (p : t) : result (option error) :=
  match AccountNumber.IBAN (Account p) with
  | None => Panics PanicNilDereference
  | Some iban =>
    bind (bbanPrefixIs iban "30") (fun is30 =>
    bind (if is30 then Returns true else bbanPrefixIs iban "31") (fun qrIBAN =>
    if qrIBAN then
      if isNil (PaymentReference.Number (Reference p))
      then Returns (Some (ErrQRReferenceRequired (IBAN.PrintCode iban)))
      else if negb (isReferenceNumber (PaymentReference.Number (Reference p)))
      then Returns (Some (ErrQRReferenceRequired (IBAN.PrintCode iban)))
      else Returns None
    else
      if negb (isNil (PaymentReference.Number (Reference p)))
         && isReferenceNumber (PaymentReference.Number (Reference p))
      then Returns (Some (ErrQRReferenceNotAllowed (IBAN.PrintCode iban)))
      else Returns None))
  end.

(** [Validate] validates the payload and returns nil on success. *)
Definition Validate (p : t) : result (option error) :=
  match AccountNumber.Validate (Account p) with Some err => Returns (Some err) | None =>
  match Entity.Validate (Creditor p) with Some err => Returns (Some err) | None =>
  match Entity.Validate (UltimateCreditor p) with Some err => Returns (Some err) | None =>
  match PaymentAmount.Validate (CurrencyAmount p) with Some err => Returns (Some err) | None =>
  match Entity.Validate (UltimateDebtor p) with Some err => Returns (Some err) | None =>
  match PaymentReference.Validate (Reference p) with Some err => Returns (Some err) | None =>
  match PaymentInformation.Validate (AdditionalInformation p) with Some err => Returns (Some err) | None =>
  match AlternativeProcedures.Validate (AlternativeProcedureParameters p) with Some err => Returns (Some err) | None =>
  (* The Creditor field must not be empty. *)
  if isEmpty (Entity.Name (Creditor p)) then Returns (Some ErrNoCreditorName)
  (* The UltimateCreditor field is reserved for future use. *)
  else if negb (isEmpty (Entity.Name (UltimateCreditor p)))
  then Returns (Some ErrUltimateCreditor)
  (* If a QR-IBAN is used, Reference must contain a QRReference code.
     Otherwise, either no reference or a Creditor Reference must be used. *)
  else validateReferenceForAccount p
  end end end end end end end end.

(** [Serialize] serializes the payload data to [w]. The payload is
    validated before serialization. *)
Definition Serialize {W} `{Writer W} (p : t) (w : W) : result (W * option error) :=
  bind (Validate p) (fun err =>
  match err with
  | Some e => Returns (w, Some e)
  | None =>
    write w <- w, str "SPC" ++ CRLF ++ str "0200" ++ CRLF ++ str "1" ++ CRLF in
    try w <- AccountNumber.Serialize (Account p) w in
    write w <- w, CRLF in
    try w <- Entity.Serialize (Creditor p) w in
    write w <- w, CRLF in
    try w <- Entity.Serialize (UltimateCreditor p) w in
    write w <- w, CRLF in
    try w <- Returns (PaymentAmount.Serialize (CurrencyAmount p) w) in
    write w <- w, CRLF in
    try w <- Entity.Serialize (UltimateDebtor p) w in
    write w <- w, CRLF in
    try w <- Returns (PaymentReference.Serialize (Reference p) w) in
    write w <- w, CRLF in
    try w <- Returns (PaymentInformation.Serialize (AdditionalInformation p) w) in
    write w <- w, CRLF in
    try w <- AlternativeProcedures.Serialize (AlternativeProcedureParameters p) w in
    Returns (w, None)
  end).

End Payload.

(** [NewIBANOrDie(s)]: a helper to set the IBAN field; it panics with the
    error of [iban.NewIBAN], for which [parse] stands. *)
Definition NewIBANOrDie (parse : gostring -> IBAN.t + error) (s : gostring)
  : result AccountNumber.t :=
  match parse s with
  | inr err => Panics (PanicError err)
  | inl iban => Returns {| AccountNumber.IBAN := Some iban |}
  end.

(** ** Text layout in Helvetica (the Helvetica file)

    The layout functions read their lines rune by rune ([range]) and build
    their output from those runes, so a line is seen here as the runes that
    [range] yields over it, a byte that is not valid UTF-8 as [RuneError].
    Widths are float64 throughout. *)

(** One entry of a width table: the code point and the binary64 value of
    the decimal literal that the source gives as its width. *)
Definition wx (r : Z) (w : Q) : rune * float64 :=
  (r, f64_of_ratio (Qnum w) (Zpos (Qden w))).

(** Glyph widths for Helvetica font, relative to point size: the entries
    of the map [regularWX], keyed by code point. *)
Definition regularWX : list (rune * float64) := [
  wx 0x0020 0.278; wx 0x0021 0.278; wx 0x0022 0.355; wx 0x0023 0.556;
  wx 0x0024 0.556; wx 0x0025 0.889; wx 0x0026 0.667; wx 0x0027 0.191;
  wx 0x0028 0.333; wx 0x0029 0.333; wx 0x002a 0.389; wx 0x002b 0.584;
  wx 0x002c 0.278; wx 0x002d 0.333; wx 0x002e 0.278; wx 0x002f 0.278;
  wx 0x0030 0.556; wx 0x0031 0.556; wx 0x0032 0.556; wx 0x0033 0.556;
  wx 0x0034 0.556; wx 0x0035 0.556; wx 0x0036 0.556; wx 0x0037 0.556;
  wx 0x0038 0.556; wx 0x0039 0.556; wx 0x003a 0.278; wx 0x003b 0.278;
  wx 0x003c 0.584; wx 0x003d 0.584; wx 0x003e 0.584; wx 0x003f 0.556;
  wx 0x0040 1.015; wx 0x0041 0.667; wx 0x0042 0.667; wx 0x0043 0.722;
  wx 0x0044 0.722; wx 0x0045 0.667; wx 0x0046 0.611; wx 0x0047 0.778;
  wx 0x0048 0.722; wx 0x0049 0.278; wx 0x004a 0.500; wx 0x004b 0.667;
  wx 0x004c 0.556; wx 0x004d 0.833; wx 0x004e 0.722; wx 0x004f 0.778;
  wx 0x0050 0.667; wx 0x0051 0.778; wx 0x0052 0.722; wx 0x0053 0.667;
  wx 0x0054 0.611; wx 0x0055 0.722; wx 0x0056 0.667; wx 0x0057 0.944;
  wx 0x0058 0.667; wx 0x0059 0.667; wx 0x005a 0.611; wx 0x005b 0.278;
  wx 0x005c 0.278; wx 0x005d 0.278; wx 0x005e 0.469; wx 0x005f 0.556;
  wx 0x0060 0.333; wx 0x0061 0.556; wx 0x0062 0.556; wx 0x0063 0.500;
  wx 0x0064 0.556; wx 0x0065 0.556; wx 0x0066 0.278; wx 0x0067 0.556;
  wx 0x0068 0.556; wx 0x0069 0.222; wx 0x006a 0.222; wx 0x006b 0.500;
  wx 0x006c 0.222; wx 0x006d 0.833; wx 0x006e 0.556; wx 0x006f 0.556;
  wx 0x0070 0.556; wx 0x0071 0.556; wx 0x0072 0.333; wx 0x0073 0.500;
  wx 0x0074 0.278; wx 0x0075 0.556; wx 0x0076 0.500; wx 0x0077 0.722;
  wx 0x0078 0.500; wx 0x0079 0.500; wx 0x007a 0.500; wx 0x007b 0.334;
  wx 0x007c 0.260; wx 0x007d 0.334; wx 0x007e 0.584; wx 0x00a1 0.333;
  wx 0x00a2 0.556; wx 0x00a3 0.556; wx 0x00a4 0.556; wx 0x00a5 0.556;
  wx 0x00a6 0.260; wx 0x00a7 0.556; wx 0x00a8 0.333; wx 0x00a9 0.737;
  wx 0x00aa 0.370; wx 0x00ab 0.556; wx 0x00ac 0.584; wx 0x00ae 0.737;
  wx 0x00af 0.333; wx 0x00b0 0.400; wx 0x00b1 0.584; wx 0x00b2 0.333;
  wx 0x00b3 0.333; wx 0x00b4 0.333; wx 0x00b5 0.556; wx 0x00b6 0.537;
  wx 0x00b7 0.278; wx 0x00b8 0.333; wx 0x00b9 0.333; wx 0x00ba 0.365;
  wx 0x00bb 0.556; wx 0x00bc 0.834; wx 0x00bd 0.834; wx 0x00be 0.834;
  wx 0x00bf 0.611; wx 0x00c0 0.667; wx 0x00c1 0.667; wx 0x00c2 0.667;
  wx 0x00c3 0.667; wx 0x00c4 0.667; wx 0x00c5 0.667; wx 0x00c6 1.000;
  wx 0x00c7 0.722; wx 0x00c8 0.667; wx 0x00c9 0.667; wx 0x00ca 0.667;
  wx 0x00cb 0.667; wx 0x00cc 0.278; wx 0x00cd 0.278; wx 0x00ce 0.278;
  wx 0x00cf 0.278; wx 0x00d0 0.722; wx 0x00d1 0.722; wx 0x00d2 0.778;
  wx 0x00d3 0.778; wx 0x00d4 0.778; wx 0x00d5 0.778; wx 0x00d6 0.778;
  wx 0x00d7 0.584; wx 0x00d8 0.778; wx 0x00d9 0.722; wx 0x00da 0.722;
  wx 0x00db 0.722; wx 0x00dc 0.722; wx 0x00dd 0.667; wx 0x00de 0.667;
  wx 0x00df 0.611; wx 0x00e0 0.556; wx 0x00e1 0.556; wx 0x00e2 0.556;
  wx 0x00e3 0.556; wx 0x00e4 0.556; wx 0x00e5 0.556; wx 0x00e6 0.889;
  wx 0x00e7 0.500; wx 0x00e8 0.556; wx 0x00e9 0.556; wx 0x00ea 0.556;
  wx 0x00eb 0.556; wx 0x00ec 0.278; wx 0x00ed 0.278; wx 0x00ee 0.278;
  wx 0x00ef 0.278; wx 0x00f0 0.556; wx 0x00f1 0.556; wx 0x00f2 0.556;
  wx 0x00f3 0.556; wx 0x00f4 0.556; wx 0x00f5 0.556; wx 0x00f6 0.556;
  wx 0x00f7 0.584; wx 0x00f8 0.611; wx 0x00f9 0.556; wx 0x00fa 0.556;
  wx 0x00fb 0.556; wx 0x00fc 0.556; wx 0x00fd 0.500; wx 0x00fe 0.556;
  wx 0x00ff 0.500; wx 0x0100 0.667; wx 0x0101 0.556; wx 0x0102 0.667;
  wx 0x0103 0.556; wx 0x0104 0.667; wx 0x0105 0.556; wx 0x0106 0.722;
  wx 0x0107 0.500; wx 0x010c 0.722; wx 0x010d 0.500; wx 0x010e 0.722;
  wx 0x010f 0.643; wx 0x0110 0.722; wx 0x0111 0.556; wx 0x0112 0.667;
  wx 0x0113 0.556; wx 0x0116 0.667; wx 0x0117 0.556; wx 0x0118 0.667;
  wx 0x0119 0.556; wx 0x011a 0.667; wx 0x011b 0.556; wx 0x011e 0.778;
  wx 0x011f 0.556; wx 0x0122 0.778; wx 0x0123 0.556; wx 0x012a 0.278;
  wx 0x012b 0.278; wx 0x012e 0.278; wx 0x012f 0.222; wx 0x0130 0.278;
  wx 0x0131 0.278; wx 0x0136 0.667; wx 0x0137 0.500; wx 0x0139 0.556;
  wx 0x013a 0.222; wx 0x013b 0.556; wx 0x013c 0.222; wx 0x013d 0.556;
  wx 0x013e 0.299; wx 0x0141 0.556; wx 0x0142 0.222; wx 0x0143 0.722;
  wx 0x0144 0.556; wx 0x0145 0.722; wx 0x0146 0.556; wx 0x0147 0.722;
  wx 0x0148 0.556; wx 0x014c 0.778; wx 0x014d 0.556; wx 0x0150 0.778;
  wx 0x0151 0.556; wx 0x0152 1.000; wx 0x0153 0.944; wx 0x0154 0.722;
  wx 0x0155 0.333; wx 0x0156 0.722; wx 0x0157 0.333; wx 0x0158 0.722;
  wx 0x0159 0.333; wx 0x015a 0.667; wx 0x015b 0.500; wx 0x015e 0.667;
  wx 0x015f 0.500; wx 0x0160 0.667; wx 0x0161 0.500; wx 0x0162 0.611;
  wx 0x0163 0.278; wx 0x0164 0.611; wx 0x0165 0.317; wx 0x016a 0.722;
  wx 0x016b 0.556; wx 0x016e 0.722; wx 0x016f 0.556; wx 0x0170 0.722;
  wx 0x0171 0.556; wx 0x0172 0.722; wx 0x0173 0.556; wx 0x0178 0.667;
  wx 0x0179 0.611; wx 0x017a 0.500; wx 0x017b 0.611; wx 0x017c 0.500;
  wx 0x017d 0.611; wx 0x017e 0.500; wx 0x0192 0.556; wx 0x0218 0.667;
  wx 0x0219 0.500; wx 0x02c6 0.333; wx 0x02c7 0.333; wx 0x02d8 0.333;
  wx 0x02d9 0.333; wx 0x02da 0.333; wx 0x02db 0.333; wx 0x02dc 0.333;
  wx 0x02dd 0.333; wx 0x2013 0.556; wx 0x2014 1.000; wx 0x2018 0.222;
  wx 0x2019 0.222; wx 0x201a 0.222; wx 0x201c 0.333; wx 0x201d 0.333;
  wx 0x201e 0.333; wx 0x2020 0.556; wx 0x2021 0.556; wx 0x2022 0.350;
  wx 0x2026 1.000; wx 0x2030 1.000; wx 0x2039 0.333; wx 0x203a 0.333;
  wx 0x2044 0.167; wx 0x20ac 0.556; wx 0x2122 1.000; wx 0x2202 0.476;
  wx 0x2206 0.612; wx 0x2211 0.600; wx 0x2212 0.584; wx 0x221a 0.453;
  wx 0x2260 0.549; wx 0x2264 0.549; wx 0x2265 0.549; wx 0x25ca 0.471;
  wx 0xf6c3 0.250; wx 0xfb01 0.500; wx 0xfb02 0.500
].

(** [m, ok := regularWX[r]]. *)
Definition lookupWX (r : rune) : option float64 :=
  match find (fun kv => fst kv =? r) regularWX with
  | Some kv => Some (snd kv)
  | None => None
  end.

(** The rune [' ']. *)
Definition space : rune := 32.

(** The constant [1.0]. *)
Definition f64_one : float64 := f64_of_Z 1.

(** The width of [s] when printed in Helvetica font, relative to the
    point size used. *)
Definition stringWidth (s : gostring) : float64 :=
  fold_left (fun multiplier r =>
               match lookupWX r with
               | Some m => f64_add multiplier m
               | None => f64_add multiplier f64_one
               end) s f64_zero.

(** The width [w] that the loops over runes compute for [r]. *)
Definition runeWidth (r : rune) : float64 :=
  match lookupWX r with
  | Some m => m
  | None => f64_one (* Default. *)
  end.

(** The variables of the reflow loops. *)
Record reflowState := {
  reflowed : list gostring;
  currentLine : gostring;
  currentWidth : float64
}.

Definition flush (st : reflowState) : reflowState :=
  {| reflowed := reflowed st ++ [currentLine st];
     currentLine := [];
     currentWidth := f64_zero |}.

(** The body of [for _, r := range ...] in both reflow functions. *)
Definition reflowRune (maxWidth : float64) (st : reflowState) (r : rune)
  : reflowState :=
  let w := runeWidth r in
  let st := if f64_gt (f64_add (currentWidth st) w) maxWidth then flush st else st in
  {| reflowed := reflowed st;
     currentLine := currentLine st ++ [r];
     currentWidth := f64_add (currentWidth st) w |}.

(** [currentLine := ""; currentWidth := 0.0] with the lines emitted so far. *)
Definition startLine (emitted : list gostring) : reflowState :=
  {| reflowed := emitted; currentLine := []; currentWidth := f64_zero |}.

Definition reflowAtRune (lines : list gostring) (maxWidth : float64)
  : list gostring :=
  fold_left (fun emitted line =>
    if f64_lt (stringWidth line) maxWidth then emitted ++ [line]
    else
      let st := fold_left (reflowRune maxWidth) line (startLine emitted) in
      reflowed st ++ [currentLine st]) lines [].

Definition addSpace (spaceWidth : float64) (st : reflowState) : reflowState :=
  {| reflowed := reflowed st;
     currentLine := currentLine st ++ [space];
     currentWidth := f64_add (currentWidth st) spaceWidth |}.

(** The body of [for _, word := range strings.Fields(line)]. *)
Definition reflowWord (maxWidth spaceWidth : float64) (st : reflowState)
  (word : gostring) : reflowState :=
  let w := stringWidth word in
  if f64_gt w maxWidth then
    (* Switch to the reflowAtRune algorithm. *)
    let st := if negb (isEmpty (currentLine st)) then addSpace spaceWidth st else st in
    fold_left (reflowRune maxWidth) word st
  else
    (* Check if we should break before this word. *)
    let st :=
      if negb (isEmpty (currentLine st)) then
        if f64_gt (f64_add (f64_add (currentWidth st) spaceWidth) w) maxWidth
        then flush st
        else addSpace spaceWidth st
      else st in
    {| reflowed := reflowed st;
       currentLine := currentLine st ++ word;
       currentWidth := f64_add (currentWidth st) w |}.

(** [spaceWidth, _ := regularWX[' ']]. *)
Definition spaceWidth : float64 :=
  match lookupWX space with Some m => m | None => f64_zero end.

Definition reflowAtSpace (lines : list gostring) (maxWidth : float64)
  : list gostring :=
  fold_left (fun emitted line =>
    if f64_lt (stringWidth line) maxWidth then emitted ++ [line]
    else
      let st := fold_left (reflowWord maxWidth spaceWidth)
                          (strings.Fields line) (startLine emitted) in
      reflowed st ++ [currentLine st]) lines [].

(** The suffix of a shortened line. *)
Definition ellipsis : gostring := str "…".

(** The loop of [shortenToWidth] over the runes still to read. *)
Fixpoint shortenLoop (rest : gostring) (suffixWidth maxWidth : float64)
  (shortened : gostring) (currentWidth : float64) (line : gostring) : gostring :=
  match rest with
  | [] => line
  | r :: rest' =>
    let w := runeWidth r in
    if f64_gt (f64_add (f64_add currentWidth suffixWidth) w) maxWidth
    then shortened ++ ellipsis
    else shortenLoop rest' suffixWidth maxWidth (shortened ++ [r])
                     (f64_add currentWidth w) line
  end.

Definition shortenToWidth (line : gostring) (maxWidth : float64) : gostring :=
  let suffix := ellipsis in
  let suffixWidth := stringWidth suffix in
  shortenLoop line suffixWidth maxWidth [] f64_zero line.

(** ** Notions used to state the properties *)

(** [r] is on the allow-list. *)
Definition allowed (r : rune) : Prop := In r validRunes.

Definition isDigit (r : rune) : bool := (48 <=? r) && (r <=? 57).

(** [s] is an integer part of one digit or more, a point and exactly two
    decimal digits. *)
Definition isFixed2 (s : gostring) : bool :=
  match rev s with
  | d2 :: d1 :: point :: intPart =>
    isDigit d2 && isDigit d1 && (point =? 46)
    && negb (isEmpty intPart) && forallb isDigit intPart
  | _ => false
  end.

(** The procedure texts of a list of alternative procedures. *)
Definition procedures (vec : AlternativeProcedures.t) : list gostring :=
  map AlternativeProcedure.Procedure vec.

(** [BillInformation] with the end of its invoice date replaced. *)
Definition withInvoiceEnd (bi : BillInformation.t) (e : time.Time) : BillInformation.t :=
  {| BillInformation.InvoiceNumber := BillInformation.InvoiceNumber bi;
     BillInformation.InvoiceDate :=
       {| dates.Date := dates.Date (BillInformation.InvoiceDate bi); dates.End := e |};
     BillInformation.CustomerReference := BillInformation.CustomerReference bi;
     BillInformation.VATNumber := BillInformation.VATNumber bi;
     BillInformation.VATDates := BillInformation.VATDates bi;
     BillInformation.VATRates := BillInformation.VATRates bi;
     BillInformation.VATImportTaxRates := BillInformation.VATImportTaxRates bi;
     BillInformation.Conditions := BillInformation.Conditions bi |}.

(** Example 1 of the syntax definition of the bill information (S1). *)
Definition structuredExample1 : BillInformation.t :=
  {| BillInformation.InvoiceNumber := str "10201409";
     BillInformation.InvoiceDate := OneDate 2019 5 12;
     BillInformation.CustomerReference := str "1400.000-53";
     BillInformation.VATNumber := str "106017086";
     BillInformation.VATDates := OneDate 2018 5 8;
     BillInformation.VATRates :=
       [ {| TaxRate.RatePercent := f64_of_ratio 77 10; TaxRate.Amount := f64_zero |} ];
     BillInformation.VATImportTaxRates := [];
     BillInformation.Conditions :=
       [ {| PaymentCondition.DiscountPercent := f64_of_Z 2;
            PaymentCondition.NumberOfDays := 10 |};
         {| PaymentCondition.DiscountPercent := f64_of_Z 0;
            PaymentCondition.NumberOfDays := 30 |} ] |}.

(** A bill information that is empty but for an invoice date with a start
    and a later end. *)
Definition invoiceDateRange : BillInformation.t :=
  withInvoiceEnd
    {| BillInformation.InvoiceNumber := str "10201409";
       BillInformation.InvoiceDate := OneDate 2019 5 12;
       BillInformation.CustomerReference := [];
       BillInformation.VATNumber := [];
       BillInformation.VATDates := dates.Build_t time.zero time.zero;
       BillInformation.VATRates := [];
       BillInformation.VATImportTaxRates := [];
       BillInformation.Conditions := [] |}
    (time.Date 2019 6 12).

(** The account that go-iban builds from "CH5604835012345678009", an
    ordinary IBAN, and from "CH4431999123000889012", a QR-IBAN. *)
Definition ordinaryIBAN : IBAN.t :=
  {| IBAN.Code := str "CH5604835012345678009";
     IBAN.PrintCode := str "CH56 0483 5012 3456 7800 9";
     IBAN.CountryCode := str "CH";
     IBAN.CheckDigits := str "56";
     IBAN.BBAN := str "04835012345678009" |}.

Definition qrIBAN : IBAN.t :=
  {| IBAN.Code := str "CH4431999123000889012";
     IBAN.PrintCode := str "CH44 3199 9123 0008 8901 2";
     IBAN.CountryCode := str "CH";
     IBAN.CheckDigits := str "44";
     IBAN.BBAN := str "31999123000889012" |}.

(** [&iban.IBAN{CountryCode: "CH"}]: every other field is the empty
    string. *)
Definition bareIBAN : IBAN.t :=
  {| IBAN.Code := []; IBAN.PrintCode := []; IBAN.CountryCode := str "CH";
     IBAN.CheckDigits := []; IBAN.BBAN := [] |}.

Definition minimalCorrectEntity : Entity.t :=
  {| Entity.Name := str "Test Creditor";
     Entity.Address := Combined {| CombinedAddress.AddressLine1 := [];
                                   CombinedAddress.AddressLine2 := str "Test Address" |};
     Entity.CountryCode := str "CH" |}.

(** The minimal payload of the tests, for a given account and reference. *)
Definition minimalPayload (iban : option IBAN.t) (ref : Printer) : Payload.t :=
  {| Payload.Account := {| AccountNumber.IBAN := iban |};
     Payload.Creditor := minimalCorrectEntity;
     Payload.UltimateCreditor := Entity.empty;
     Payload.CurrencyAmount := {| PaymentAmount.Amount := f64_zero;
                                  PaymentAmount.Currency := CHF |};
     Payload.UltimateDebtor := Entity.empty;
     Payload.Reference := {| PaymentReference.Number := ref |};
     Payload.AdditionalInformation :=
       {| PaymentInformation.UnstructuredMessage := [];
          PaymentInformation.StructuredMessage := BillInformation.empty |};
     Payload.AlternativeProcedureParameters := [] |}.

Definition minimalCorrectPayload : Payload.t :=
  minimalPayload (Some ordinaryIBAN) NoReference.

(** [Payload{}]. *)
Definition zeroPayload : Payload.t :=
  {| Payload.Account := {| AccountNumber.IBAN := None |};
     Payload.Creditor := Entity.empty;
     Payload.UltimateCreditor := Entity.empty;
     Payload.CurrencyAmount := {| PaymentAmount.Amount := f64_zero;
                                  PaymentAmount.Currency := [] |};
     Payload.UltimateDebtor := Entity.empty;
     Payload.Reference := {| PaymentReference.Number := NoReference |};
     Payload.AdditionalInformation :=
       {| PaymentInformation.UnstructuredMessage := [];
          PaymentInformation.StructuredMessage := BillInformation.empty |};
     Payload.AlternativeProcedureParameters := [] |}.

(** Every check of [Payload.Validate] that comes before the rule on the
    account and the reference passes. *)
Definition otherRulesHold (p : Payload.t) : Prop :=
  AccountNumber.Validate (Payload.Account p) = None
  /\ Entity.Validate (Payload.Creditor p) = None
  /\ Entity.Validate (Payload.UltimateCreditor p) = None
  /\ PaymentAmount.Validate (Payload.CurrencyAmount p) = None
  /\ Entity.Validate (Payload.UltimateDebtor p) = None
  /\ PaymentReference.Validate (Payload.Reference p) = None
  /\ PaymentInformation.Validate (Payload.AdditionalInformation p) = None
  /\ AlternativeProcedures.Validate (Payload.AlternativeProcedureParameters p) = None
  /\ Entity.Name (Payload.Creditor p) <> []
  /\ Entity.Name (Payload.UltimateCreditor p) = [].

(** [Validate] fails: it returns an error. *)
Definition fails (r : result (option error)) : Prop :=
  exists e, r = Returns (Some e).

(** *** The wire format, field by field

    The fields of the payload as the standard lists them; the payload is
    these fields joined by CRLF. *)
Module Wire.

(** The seven fields of an entity: address type, name, four address
    fields, country. *)
Definition entityFields (e : Entity.t) : list gostring :=
  if isEmpty (Entity.Name e) then [[]; []; []; []; []; []; []]
  else match Entity.Address e with
  | Combined ca =>
    [str "K"; Entity.Name e; CombinedAddress.AddressLine1 ca;
     CombinedAddress.AddressLine2 ca; []; []; Entity.CountryCode e]
  | Structured sa =>
    [str "S"; Entity.Name e; StructuredAddress.StreetName sa;
     StructuredAddress.BuildingNumber sa; StructuredAddress.PostCode sa;
     StructuredAddress.TownName sa; Entity.CountryCode e]
  | NoAddress | OtherAddress _ => [[]; Entity.CountryCode e]
  end.

Definition amountFields (pa : PaymentAmount.t) : list gostring :=
  [if f64_gt (PaymentAmount.Amount pa) f64_zero
   then fmt.Sprintf_2f (PaymentAmount.Amount pa) else [];
   PaymentAmount.Currency pa].

Definition referenceFields (r : PaymentReference.t) : list gostring :=
  match PaymentReference.Number r with
  | ReferenceNumber digital => [str "QRR"; digital]
  | CreditorReference digital => [str "SCOR"; digital]
  | NoReference => [str "NON"; []]
  | OtherPrinter _ => [[]]
  end.

Definition informationFields (pi : PaymentInformation.t) : list gostring :=
  [PaymentInformation.UnstructuredMessage pi; str "EPD";
   BillInformation.ToString (PaymentInformation.StructuredMessage pi)].

Definition procedureFields (vec : AlternativeProcedures.t) : list gostring :=
  [nth 0 (procedures vec) []; nth 1 (procedures vec) []].

Definition accountCode (a : AccountNumber.t) : gostring :=
  match AccountNumber.IBAN a with
  | Some iban => IBAN.Code iban
  | None => []
  end.

Definition fields (p : Payload.t) : list gostring :=
  [str "SPC"; str "0200"; str "1"; accountCode (Payload.Account p)]
  ++ entityFields (Payload.Creditor p)
  ++ entityFields (Payload.UltimateCreditor p)
  ++ amountFields (Payload.CurrencyAmount p)
  ++ entityFields (Payload.UltimateDebtor p)
  ++ referenceFields (Payload.Reference p)
  ++ informationFields (Payload.AdditionalInformation p)
  ++ procedureFields (Payload.AlternativeProcedureParameters p).

Definition payload (p : Payload.t) : gostring := strings.Join (fields p) CRLF.

End Wire.

(** *** Reflowed lines put together again *)

(** The lines of [out] in order, with [seps] giving what stands between
    each line and the next. *)
Fixpoint rejoin (out : list gostring) (seps : list gostring) : gostring :=
  match out, seps with
  | [], _ => []
  | l :: rest, [] => l ++ rejoin rest []
  | l :: rest, s :: seps' => l ++ s ++ rejoin rest seps'
  end.

(** Between two lines stands a single space, where the break replaced a
    space, or nothing, where it fell inside a word. *)
Definition isSeparator (s : gostring) : Prop := s = [space] \/ s = [].

(** The last rune of a line is a space. *)
Definition endsInSpace (l : gostring) : Prop := exists l', l = l' ++ [space].

(** The reference is a national (QR) reference number. *)
Definition isQRReference (p : Payload.t) : Prop :=
  exists digital,
    PaymentReference.Number (Payload.Reference p) = ReferenceNumber digital.

(** The reference is absent or an ISO creditor reference. *)
Definition isAbsentOrCreditorReference (p : Payload.t) : Prop :=
  PaymentReference.Number (Payload.Reference p) = NoReference
  \/ exists digital,
       PaymentReference.Number (Payload.Reference p) = CreditorReference digital.

(** The lines of [ls], each followed by its separator. *)
Fixpoint glue (ls : list gostring) (seps : list gostring) : gostring :=
  match ls, seps with
  | l :: ls', s :: seps' => l ++ s ++ glue ls' seps'
  | _, _ => []
  end.

(** The state [st] with the lines [pre] emitted before its own. *)
Definition prepend (pre : list gostring) (st : reflowState) : reflowState :=
  {| reflowed := pre ++ reflowed st;
     currentLine := currentLine st;
     currentWidth := currentWidth st |}.

(** The text of a state: the emitted lines with [seps] between them,
    then the current line. *)
Definition textOf (st : reflowState) (seps : list gostring) : gostring :=
  glue (reflowed st) seps ++ currentLine st.

Definition separatorsFor (st : reflowState) (seps : list gostring) : Prop :=
  length seps = length (reflowed st) /\ Forall isSeparator seps.

(** The words read so far, joined by single spaces, are the text of the
    state; the current line is empty only before the first word. *)
Definition keepsText (st : reflowState) (done : list gostring) : Prop :=
  exists seps,
    separatorsFor st seps
    /\ textOf st seps = strings.Join done [space]
    /\ (done <> [] -> currentLine st <> []).

(** [w] is a float64 sum of the widths of the runes of a line, taken in
    reading order: the runes are added one by one or in groups, as the
    reflow loops do (rune by rune inside an over-long word, word by word
    otherwise). *)
Inductive sumsTo : gostring -> float64 -> Prop :=
| sums_nil : sumsTo [] f64_zero
| sums_rune (r : rune) : sumsTo [r] (runeWidth r)
| sums_app (a b : gostring) (x y : float64) :
    sumsTo a x -> sumsTo b y -> sumsTo (a ++ b) (f64_add x y).

(** A line is within the width, as the loops add it up, or it ends in the
    space that the switch to the rune algorithm puts before an over-long
    word. *)
Definition lineOK (maxWidth : float64) (l : gostring) : Prop :=
  endsInSpace l \/ exists w, sumsTo l w /\ f64_gt w maxWidth = false.

(** Inside the loop over the runes of an over-long word. *)
Definition runesInv (maxWidth : float64) (st : reflowState) : Prop :=
  sumsTo (currentLine st) (currentWidth st)
  /\ (endsInSpace (currentLine st) \/ f64_gt (currentWidth st) maxWidth = false)
  /\ Forall (lineOK maxWidth) (reflowed st).

(** Between two words. *)
Definition wordsInv (maxWidth : float64) (st : reflowState) : Prop :=
  sumsTo (currentLine st) (currentWidth st)
  /\ f64_gt (currentWidth st) maxWidth = false
  /\ (currentLine st = [] -> currentWidth st = f64_zero)
  /\ Forall (lineOK maxWidth) (reflowed st).

(** In [shortenToWidth], the test that ends the loop at the rune [r] that
    follows the prefix [pre]: the width of the prefix, plus the width of
    the ellipsis, plus the width of [r], is more than the maximum width. *)
Definition overflowsAt (maxWidth : float64) (pre : gostring) (r : rune) : bool :=
  f64_gt (f64_add (f64_add (stringWidth pre) (stringWidth ellipsis)) (runeWidth r))
         maxWidth.

(** No rune of [s] ends the loop of [shortenToWidth]: the test fails at
    every rune of [s] (with the runes before it as the prefix). *)
Definition quiet (maxWidth : float64) (s : gostring) : Prop :=
  forall pre r post, s = pre ++ r :: post -> overflowsAt maxWidth pre r = false.

(** *** Data of the tests of the package *)

Definition loremLines : list gostring :=
  [str "Lorem ipsum dolor sit amet, consectetur adipiscing elit,";
   str "sed do eiusmod tempor incididunt ut labore et dolore magna aliqua."].

(** 5cm × 28.35 pt/cm ÷ 10pt font size: the constant expression
    [5.0 * 28.35 / 10.0] is evaluated exactly, to 14.175, and then
    converted to float64. *)
Definition testWidth : float64 := f64_of_ratio 14175 1000.

(** Examples 2 and 3 of the syntax definition of the bill information. *)
Definition structuredExample2 : BillInformation.t :=
  {| BillInformation.InvoiceNumber := str "10104";
     BillInformation.InvoiceDate := OneDate 2018 2 28;
     BillInformation.CustomerReference := [];
     BillInformation.VATNumber := str "395856455";
     BillInformation.VATDates := StartAndEndDate 2018 2 26 2018 2 27;
     BillInformation.VATRates :=
       [ {| TaxRate.RatePercent := f64_of_ratio 37 10;
            TaxRate.Amount := f64_of_ratio 40019 100 |};
         {| TaxRate.RatePercent := f64_of_ratio 77 10;
            TaxRate.Amount := f64_of_ratio 55339 100 |};
         {| TaxRate.RatePercent := f64_of_Z 0; TaxRate.Amount := f64_of_Z 14 |} ];
     BillInformation.VATImportTaxRates := [];
     BillInformation.Conditions :=
       [ {| PaymentCondition.DiscountPercent := f64_of_Z 0;
            PaymentCondition.NumberOfDays := 30 |} ] |}.

Definition structuredExample3 : BillInformation.t :=
  {| BillInformation.InvoiceNumber := str "4031202511";
     BillInformation.InvoiceDate := OneDate 2018 1 7;
     BillInformation.CustomerReference := str "61257233.4";
     BillInformation.VATNumber := str "105493567";
     BillInformation.VATDates := dates.Build_t time.zero time.zero;
     BillInformation.VATRates :=
       [ {| TaxRate.RatePercent := f64_of_Z 8;
            TaxRate.Amount := f64_of_ratio 4982 100 |} ];
     BillInformation.VATImportTaxRates :=
       [ {| TaxRate.RatePercent := f64_of_ratio 25 10;
            TaxRate.Amount := f64_of_ratio 1485 100 |} ];
     BillInformation.Conditions :=
       [ {| PaymentCondition.DiscountPercent := f64_of_Z 0;
            PaymentCondition.NumberOfDays := 30 |} ] |}.

(** * Properties *)

(** ** The tests of the package, replayed *)

Example TestValidCharacters :
  map ValidateCharacterSet
      [str "Pia Rutschmann"; str "Grossmünster [#5]"; str "Señor";
       str "Fußschweiß"; str "peter@muster.ch"]
  = [None; None; None; None; None].
Proof. vm_compute. reflexivity. Qed.

Example TestInvalidCharacters :
  ValidateCharacterSet (str "sær") = Some (ErrRuneNotAllowed 0xE6 (str "sær"))
  /\ ValidateCharacterSet (str "øl") = Some (ErrRuneNotAllowed 0xF8 (str "øl"))
  /\ ValidateCharacterSet (str "Григорий")
     = Some (ErrRuneNotAllowed 0x413 (str "Григорий")).
Proof. repeat split; vm_compute; reflexivity. Qed.

Example TestStructuredExample2 :
  BillInformation.Validate structuredExample2 = None
  /\ BillInformation.ToString structuredExample2
     = str "//S1/10/10104/11/180228/30/395856455/31/180226180227/32/3.7:400.19;7.7:553.39;0:14/40/0:30".
Proof. split; vm_compute; reflexivity. Qed.

Example TestStructuredExample3 :
  BillInformation.Validate structuredExample3 = None
  /\ BillInformation.ToString structuredExample3
     = str "//S1/10/4031202511/11/180107/20/61257233.4/30/105493567/32/8:49.82/33/2.5:14.85/40/0:30".
Proof. split; vm_compute; reflexivity. Qed.

Example TestValidatePaymentAmount :
  PaymentAmount.Validate {| PaymentAmount.Amount := f64_of_Z 17;
                            PaymentAmount.Currency := CHF |} = None
  /\ PaymentAmount.Validate {| PaymentAmount.Amount := f64_of_Z (-17);
                               PaymentAmount.Currency := CHF |}
     = Some (ErrAmountNegative (f64_of_Z (-17)))
  /\ PaymentAmount.Validate {| PaymentAmount.Amount := f64_of_Z 1234567890;
                               PaymentAmount.Currency := CHF |}
     = Some (ErrAmountTooLarge (f64_of_Z 1234567890)).
Proof. repeat split; vm_compute; reflexivity. Qed.

Example TestSerializePaymentAmount :
  PaymentAmount.Serialize {| PaymentAmount.Amount := f64_of_ratio 12345678 10000;
                             PaymentAmount.Currency := CHF |} ([] : Buffer)
  = (str "1234.57" ++ CRLF ++ str "CHF", None).
Proof. vm_compute. reflexivity. Qed.

Example TestSerializeEmptyEntity :
  Entity.Validate Entity.empty = None
  /\ Entity.Serialize Entity.empty ([] : Buffer)
     = Returns (CRLF ++ CRLF ++ CRLF ++ CRLF ++ CRLF ++ CRLF, None).
Proof. split; reflexivity. Qed.

Example TestValidateCrossFieldDependencies :
  let esr := ReferenceNumber (str "210000000003139471430009017") in
  let iso := CreditorReference (str "RF8312345678912345678912") in
  map Payload.Validate
      [minimalPayload (Some qrIBAN) NoReference;
       minimalPayload (Some qrIBAN) iso;
       minimalPayload (Some qrIBAN) esr;
       minimalPayload (Some ordinaryIBAN) NoReference;
       minimalPayload (Some ordinaryIBAN) iso;
       minimalPayload (Some ordinaryIBAN) esr]
  = [Returns (Some (ErrQRReferenceRequired (IBAN.PrintCode qrIBAN)));
     Returns (Some (ErrQRReferenceRequired (IBAN.PrintCode qrIBAN)));
     Returns None;
     Returns None;
     Returns None;
     Returns (Some (ErrQRReferenceNotAllowed (IBAN.PrintCode ordinaryIBAN)))].
Proof. vm_compute. reflexivity. Qed.

Example TestReflowAtRune :
  reflowAtRune loremLines testWidth
  = [str "Lorem ipsum dolor sit amet, co";
     str "nsectetur adipiscing elit,";
     str "sed do eiusmod tempor incididu";
     str "nt ut labore et dolore magna ali";
     str "qua."].
Proof. vm_compute. reflexivity. Qed.

Example TestReflowAtSpace :
  reflowAtSpace loremLines testWidth
  = [str "Lorem ipsum dolor sit amet,";
     str "consectetur adipiscing elit,";
     str "sed do eiusmod tempor";
     str "incididunt ut labore et dolore";
     str "magna aliqua."].
Proof. vm_compute. reflexivity. Qed.

Example TestReflowAtSpaceWithLongWord :
  reflowAtSpace
    [str "Lorem ipsum dolor sit amet, consectetur adipiscing elit,";
     str "sed do eiusmodtemporincididuntutlaboreetdoloremagna aliqua."] testWidth
  = [str "Lorem ipsum dolor sit amet,";
     str "consectetur adipiscing elit,";
     str "sed do eiusmodtemporincididun";
     str "tutlaboreetdoloremagna aliqua."].
Proof. vm_compute. reflexivity. Qed.

Example TestReflowAtSpaceWithOnlyLongWord :
  reflowAtSpace [str "Eiusmodtemporincididuntutlaboreetdoloremagna."] testWidth
  = [str "Eiusmodtemporincididuntutlabo"; str "reetdoloremagna."].
Proof. vm_compute. reflexivity. Qed.

(** ** The character-set guard *)

Lemma ContainsRune_In (s : gostring) (r : rune) :
  strings.ContainsRune s r = true <-> In r s.
Proof.
  unfold strings.ContainsRune. rewrite existsb_exists. split.
  - intros [x [Hin Heq]]. apply Z.eqb_eq in Heq. now subst.
  - intros Hin. exists r. split; [assumption | apply Z.eqb_refl].
Qed.

Lemma ContainsRune_allowed (r : rune) :
  strings.ContainsRune validRunes r = true <-> allowed r.
Proof. apply ContainsRune_In. Qed.

Lemma validateRunes_None (rest s : gostring) :
  validateRunes rest s = None <-> Forall allowed rest.
Proof.
  induction rest as [|r rest IH]; cbn [validateRunes].
  - split; [constructor | reflexivity].
  - destruct (strings.ContainsRune validRunes r) eqn:Hr; cbn [negb].
    + rewrite IH. apply ContainsRune_allowed in Hr. split.
      * intros H. now constructor.
      * intros H. now inversion H.
    + split; [discriminate |].
      intros H. inversion H as [|? ? Ha _]; subst.
      apply ContainsRune_allowed in Ha. congruence.
Qed.

Lemma validateRunes_Some (rest s : gostring) (e : error) :
  validateRunes rest s = Some e ->
  exists pre r post,
    rest = pre ++ r :: post /\ Forall allowed pre /\ ~ allowed r
    /\ e = ErrRuneNotAllowed r s.
Proof.
  induction rest as [|r rest IH]; cbn [validateRunes]; [discriminate |].
  destruct (strings.ContainsRune validRunes r) eqn:Hr; cbn [negb].
  - intros H. destruct (IH H) as (pre & r' & post & -> & Hpre & Hr' & ->).
    exists (r :: pre), r', post. repeat split; try assumption.
    constructor; [now apply ContainsRune_allowed | assumption].
  - intros H. injection H as <-. exists [], r, rest. repeat split.
    + constructor.
    + intros Ha. apply ContainsRune_allowed in Ha. congruence.
Qed.

(** C3. For every string, the character-set guard succeeds exactly when
    every rune of the string is on the allow-list; when it fails, the error
    names the first rune, in reading order, that is not on the list, by its
    code point, together with the whole string. *)
Theorem C3_character_set_guard (s : gostring) :
  (ValidateCharacterSet s = None <-> Forall allowed s)
  /\ (forall e, ValidateCharacterSet s = Some e ->
      exists pre r post,
        s = pre ++ r :: post /\ Forall allowed pre /\ ~ allowed r
        /\ e = ErrRuneNotAllowed r s).
Proof.
  split.
  - apply validateRunes_None.
  - intros e. apply validateRunes_Some.
Qed.

Lemma C3_character_set_guard_witness :
  exists pre r post,
    str "sær" = pre ++ r :: post /\ Forall allowed pre /\ ~ allowed r
    /\ ErrRuneNotAllowed 0xE6 (str "sær") = ErrRuneNotAllowed r (str "sær").
Proof.
  apply (proj2 (C3_character_set_guard (str "sær"))). vm_compute. reflexivity.
Defined.

(** ** Structured bill information *)

(** C4. Example 1 of the syntax definition: invoice number 10201409,
    invoice date 2019-05-12, customer reference 1400.000-53, VAT number
    106017086, VAT date 2018-05-08, one VAT rate of 7.7 percent without
    amount and the conditions 2 percent within 10 days and 0 percent within
    30 days give exactly the string below. *)
Theorem C4_structured_example_1 :
  BillInformation.ToString structuredExample1
  = str "//S1/10/10201409/11/190512/20/1400.000-53/30/106017086/31/180508/32/7.7/40/2:10;0:30".
Proof. vm_compute. reflexivity. Qed.

Lemma structuredExample1_valid :
  BillInformation.Validate structuredExample1 = None.
Proof. vm_compute. reflexivity. Qed.

Lemma empty_bill_information :
  BillInformation.Validate BillInformation.empty = None
  /\ BillInformation.ToString BillInformation.empty = [].
Proof. split; vm_compute; reflexivity. Qed.

(** C9, as the specification states it, fails: a bill information whose
    other fields are valid and whose invoice date has a start (2019-05-12)
    and a later end (2019-06-12) does not pass validation. *)
Lemma C9_invoice_date_range_rejected :
  time.After (dates.End (BillInformation.InvoiceDate invoiceDateRange))
             (dates.Date (BillInformation.InvoiceDate invoiceDateRange)) = true
  /\ BillInformation.Validate (withInvoiceEnd invoiceDateRange time.zero) = None
  /\ BillInformation.Validate invoiceDateRange <> None.
Proof. repeat split; vm_compute; congruence. Qed.

(** C9, amended. The invoice date holds one date only: a bill information
    that is valid with a single invoice date is rejected, with the error
    "Invoice date may not have an end date", as soon as its invoice date
    is given an end date, whatever that date is. *)
Theorem C9_invoice_date_has_no_end (bi : BillInformation.t) (e : time.Time) :
  BillInformation.Validate (withInvoiceEnd bi time.zero) = None ->
  time.IsZero e = false ->
  BillInformation.Validate (withInvoiceEnd bi e) = Some (ErrInvoiceEndDate e).
Proof.
  unfold BillInformation.Validate, withInvoiceEnd; simpl.
  intros Hvalid He. rewrite He. simpl.
  destruct (ValidateCharacterSet (BillInformation.InvoiceNumber bi));
    [discriminate | reflexivity].
Qed.

Lemma C9_invoice_date_has_no_end_witness :
  BillInformation.Validate invoiceDateRange
  = Some (ErrInvoiceEndDate (time.Date 2019 6 12)).
Proof.
  apply (C9_invoice_date_has_no_end invoiceDateRange (time.Date 2019 6 12));
    vm_compute; reflexivity.
Defined.

(** ** Alternative procedures *)

(** C8. For a list of zero, one or two alternative procedures, [Serialize]
    writes, in one call, exactly two lines joined by a single CRLF: line i
    is the procedure text of entry i, and a missing entry gives an empty
    line. *)
Theorem C8_alternative_procedures_two_lines
  {W} `{Writer W} (vec : AlternativeProcedures.t) (w : W) :
  (length vec <= 2)%nat ->
  AlternativeProcedures.Serialize vec w
  = Returns (WriteString w (nth 0 (procedures vec) [] ++ CRLF
                            ++ nth 1 (procedures vec) [])).
Proof.
  intros Hlen.
  destruct vec as [|a [|b [|c rest]]]; simpl in Hlen; try lia; reflexivity.
Qed.

Lemma C8_alternative_procedures_two_lines_witness :
  AlternativeProcedures.Serialize
    [ {| AlternativeProcedure.Label := str "Label 1";
         AlternativeProcedure.Procedure := str "Procedure 1" |} ] ([] : Buffer)
  = Returns (str "Procedure 1" ++ CRLF, None).
Proof.
  rewrite C8_alternative_procedures_two_lines; [reflexivity | simpl; lia].
Defined.

Lemma three_alternative_procedures_panic {W} `{Writer W}
  (a b c : AlternativeProcedure.t) (rest : AlternativeProcedures.t) (w : W) :
  AlternativeProcedures.Serialize (a :: b :: c :: rest) w
  = Panics (PanicIndexOutOfRange 2 2).
Proof. reflexivity. Qed.

(** ** The amount *)

Lemma digitsOf_digits (fuel : nat) (n : Z) (acc : gostring) :
  0 <= n -> forallb isDigit acc = true ->
  forallb isDigit (fmt.digitsOf fuel n acc) = true.
Proof.
  revert n acc. induction fuel as [|fuel IH]; intros n acc Hn Hacc;
    cbn [fmt.digitsOf].
  - assumption.
  - assert (Hd : forallb isDigit ((48 + n mod 10) :: acc) = true).
    { cbn [forallb]. rewrite Hacc, andb_true_r. unfold isDigit.
      pose proof (Z.mod_pos_bound n 10 ltac:(lia)).
      apply andb_true_iff. split; apply Z.leb_le; lia. }
    cbv zeta. destruct (n <? 10); [assumption |].
    apply IH; [apply Z.div_pos; lia | assumption].
Qed.

Lemma digitsOf_nonempty (fuel : nat) (n : Z) (acc : gostring) :
  fmt.digitsOf (S fuel) n acc <> [].
Proof.
  revert n acc. induction fuel as [|fuel IH]; intros n acc.
  - cbn [fmt.digitsOf]. cbv zeta. destruct (n <? 10); discriminate.
  - change (fmt.digitsOf (S (S fuel)) n acc)
      with (let acc' := (48 + n mod 10) :: acc in
            if n <? 10 then acc' else fmt.digitsOf (S fuel) (n / 10) acc').
    cbv zeta. destruct (n <? 10); [discriminate | apply IH].
Qed.

Lemma utoa_digits (n : Z) : 0 <= n -> forallb isDigit (fmt.utoa n) = true.
Proof. intros Hn. apply digitsOf_digits; [assumption | reflexivity]. Qed.

Lemma utoa_nonempty (n : Z) : fmt.utoa n <> [].
Proof. apply digitsOf_nonempty. Qed.

Lemma roundCents_nonneg (m e : Z) : 0 <= m -> 0 <= fmt.roundCents m e.
Proof.
  intros Hm. unfold fmt.roundCents.
  destruct (0 <=? e) eqn:He.
  - apply Z.leb_le in He.
    pose proof (Z.pow_nonneg 2 e ltac:(lia)). nia.
  - apply Z.leb_gt in He.
    assert (Hden : 0 < 2 ^ (- e)) by (apply Z.pow_pos_nonneg; lia).
    assert (Hq : 0 <= m * 100 / 2 ^ (- e)) by (apply Z.div_pos; lia).
    cbv zeta.
    destruct (2 ^ (- e) <? 2 * ((m * 100) mod 2 ^ (- e))); [lia |].
    destruct ((2 * ((m * 100) mod 2 ^ (- e)) =? 2 ^ (- e))
              && Z.odd (m * 100 / 2 ^ (- e))); lia.
Qed.

Lemma isFixed2_intro (intPart : gostring) (n : Z) :
  intPart <> [] -> forallb isDigit intPart = true -> 0 <= n < 100 ->
  isFixed2 (intPart ++ [46] ++ fmt.twoDigits n) = true.
Proof.
  intros Hne Hdigits Hn. unfold isFixed2, fmt.twoDigits.
  rewrite rev_app_distr. cbn [rev app].
  assert (H1 : isDigit (48 + n mod 10) = true).
  { unfold isDigit. pose proof (Z.mod_pos_bound n 10 ltac:(lia)).
    apply andb_true_iff; split; apply Z.leb_le; lia. }
  assert (H2 : isDigit (48 + n / 10) = true).
  { unfold isDigit.
    assert (0 <= n / 10 < 10).
    { split; [apply Z.div_pos; lia | apply Z.div_lt_upper_bound; lia]. }
    apply andb_true_iff; split; apply Z.leb_le; lia. }
  rewrite H1, H2. cbn [andb Z.eqb Pos.eqb].
  assert (Hrd : forallb isDigit (rev intPart) = true).
  { apply forallb_forall. intros x Hx. apply in_rev in Hx.
    revert x Hx. now apply forallb_forall. }
  rewrite Hrd.
  destruct (rev intPart) eqn:Hrev; [| reflexivity].
  apply (f_equal (@rev rune)) in Hrev. rewrite rev_involutive in Hrev.
  now subst.
Qed.

Lemma f64_gt_zero_cases (x : float64) :
  f64_gt x f64_zero = true ->
  x = f64_posInf \/ exists m e, x = S754_finite false m e.
Proof.
  destruct x as [s | s | | s m e]; try destruct s; try discriminate.
  - now left.
  - right. now exists m, e.
Qed.

Lemma Sprintf_2f_finite_fixed (m : positive) (e : Z) :
  isFixed2 (fmt.Sprintf_2f (S754_finite false m e)) = true.
Proof.
  unfold fmt.Sprintf_2f, fmt.signOf. cbn [app].
  pose proof (roundCents_nonneg (Zpos m) e ltac:(lia)) as Hn.
  apply isFixed2_intro.
  - apply utoa_nonempty.
  - apply utoa_digits. apply Z.div_pos; lia.
  - apply Z.mod_pos_bound. lia.
Qed.

(** C10. The code departs from the claim at one amount.  Plus infinity is
    strictly positive and passes [PaymentAmount.Validate], which rejects
    large finite amounts through the length of their text but not "+Inf",
    of four characters; [Serialize] then writes "+Inf", which is not an
    amount with two decimal digits. *)
Theorem C10_infinite_amount_not_fixed :
  let pa := {| PaymentAmount.Amount := f64_posInf; PaymentAmount.Currency := CHF |} in
  f64_gt (PaymentAmount.Amount pa) f64_zero = true
  /\ PaymentAmount.Serialize pa ([] : Buffer)
     = (str "+Inf" ++ CRLF ++ CHF, None)
  /\ isFixed2 (str "+Inf") = false
  /\ PaymentAmount.Validate pa = None.
Proof. repeat split. Qed.

(** For every payment amount, [Serialize] writes, in one call, an amount
    line, CRLF and the currency code.  The amount line is empty exactly
    when the amount is not strictly positive (zero, negative or not a
    number); otherwise it is the amount in the format [%.2f], which for
    every finite amount is an integer part, a point and exactly two
    decimal digits. *)
Theorem amount_record {W} `{Writer W} (pa : PaymentAmount.t) (w : W) :
  exists line,
    PaymentAmount.Serialize pa w
    = WriteString w (line ++ CRLF ++ PaymentAmount.Currency pa)
    /\ (line = [] <-> f64_gt (PaymentAmount.Amount pa) f64_zero = false)
    /\ (f64_gt (PaymentAmount.Amount pa) f64_zero = true ->
        line = fmt.Sprintf_2f (PaymentAmount.Amount pa)
        /\ (PaymentAmount.Amount pa <> f64_posInf -> isFixed2 line = true)).
Proof.
  unfold PaymentAmount.Serialize.
  destruct (f64_gt (PaymentAmount.Amount pa) f64_zero) eqn:Hgt.
  - exists (fmt.Sprintf_2f (PaymentAmount.Amount pa)). cbn [app].
    destruct (f64_gt_zero_cases _ Hgt) as [Hinf | (m & e & Hfin)].
    + rewrite Hinf. repeat split; try discriminate; congruence.
    + rewrite Hfin. pose proof (Sprintf_2f_finite_fixed m e) as Hfix.
      repeat split; try discriminate; try reflexivity; try (intros _; exact Hfix).
      intros Hnil. rewrite Hnil in Hfix. discriminate.
  - exists []. repeat split; try discriminate; reflexivity.
Qed.

Lemma amount_record_witness :
  exists line,
    PaymentAmount.Serialize
      {| PaymentAmount.Amount := f64_of_ratio 12345678 10000;
         PaymentAmount.Currency := CHF |} ([] : Buffer)
    = (line ++ CRLF ++ CHF, None)
    /\ isFixed2 line = true.
Proof.
  destruct (amount_record
              {| PaymentAmount.Amount := f64_of_ratio 12345678 10000;
                 PaymentAmount.Currency := CHF |} ([] : Buffer))
    as (line & Hwritten & _ & Hpositive).
  exists line. split; [exact Hwritten |].
  apply Hpositive; [vm_compute; reflexivity | vm_compute; congruence].
Defined.

(** ** Validation of the payload *)

Lemma isEmpty_true (s : gostring) : isEmpty s = true <-> s = [].
Proof. destruct s; simpl; split; congruence. Qed.

Lemma isEmpty_false (s : gostring) : isEmpty s = false <-> s <> [].
Proof. destruct s; simpl; split; congruence. Qed.

(** When every earlier check passes, [Validate] is the rule on the account
    and the reference. *)
Lemma Validate_other_rules (p : Payload.t) :
  otherRulesHold p ->
  Payload.Validate p = Payload.validateReferenceForAccount p.
Proof.
  intros (Ha & Hc & Hu & Hm & Hd & Hr & Hi & Hp & Hname & Hult).
  unfold Payload.Validate.
  rewrite Ha, Hc, Hu, Hm, Hd, Hr, Hi, Hp.
  apply isEmpty_false in Hname. rewrite Hname, Hult. reflexivity.
Qed.

Lemma Validate_Returns_None (p : Payload.t) :
  Payload.Validate p = Returns None ->
  otherRulesHold p /\ Payload.validateReferenceForAccount p = Returns None.
Proof.
  unfold Payload.Validate, otherRulesHold.
  destruct (AccountNumber.Validate _); [discriminate |].
  destruct (Entity.Validate (Payload.Creditor p)); [discriminate |].
  destruct (Entity.Validate (Payload.UltimateCreditor p)); [discriminate |].
  destruct (PaymentAmount.Validate _); [discriminate |].
  destruct (Entity.Validate (Payload.UltimateDebtor p)); [discriminate |].
  destruct (PaymentReference.Validate _); [discriminate |].
  destruct (PaymentInformation.Validate _); [discriminate |].
  destruct (AlternativeProcedures.Validate _); [discriminate |].
  destruct (isEmpty (Entity.Name (Payload.Creditor p))) eqn:Hc; [discriminate |].
  destruct (isEmpty (Entity.Name (Payload.UltimateCreditor p))) eqn:Hu;
    [| discriminate].
  cbn [negb]. intros H.
  apply isEmpty_false in Hc. apply isEmpty_true in Hu.
  repeat split; assumption.
Qed.

Lemma bytes_eqb_eq (a b : list byte) : bytes_eqb a b = true <-> a = b.
Proof.
  unfold bytes_eqb. destruct (list_eq_dec Z.eq_dec a b); split; congruence.
Qed.

Lemma bytes_eqb_neq (a b : list byte) : bytes_eqb a b = false <-> a <> b.
Proof.
  unfold bytes_eqb. destruct (list_eq_dec Z.eq_dec a b); split; congruence.
Qed.

(** C1. Take a payload that passes every other check of [Validate].  If
    the basic bank account number of its account starts with "30" or "31",
    [Validate] succeeds exactly when the reference is a QR reference, and
    fails otherwise.  For any other two-byte start, [Validate] fails when
    the reference is a QR reference and succeeds when the reference is
    absent or an ISO creditor reference. *)
Theorem C1_reference_matches_account (p : Payload.t) (iban : IBAN.t)
  (prefix : list byte) :
  otherRulesHold p ->
  AccountNumber.IBAN (Payload.Account p) = Some iban ->
  sliceTo (IBAN.BBAN iban) 2 = Some prefix ->
  (prefix = bytes (str "30") \/ prefix = bytes (str "31") ->
     (Payload.Validate p = Returns None <-> isQRReference p)
     /\ (~ isQRReference p -> fails (Payload.Validate p)))
  /\ (prefix <> bytes (str "30") -> prefix <> bytes (str "31") ->
     (isQRReference p -> fails (Payload.Validate p))
     /\ (isAbsentOrCreditorReference p -> Payload.Validate p = Returns None)).
Proof.
  intros Hother Hiban Hslice.
  rewrite (Validate_other_rules p Hother).
  destruct Hother as (_ & _ & _ & _ & _ & Href & _).
  unfold Payload.validateReferenceForAccount, Payload.bbanPrefixIs.
  rewrite Hiban, Hslice. cbn [bind].
  unfold isQRReference, isAbsentOrCreditorReference, fails.
  unfold PaymentReference.Validate in Href.
  split.
  - intros Hqr.
    assert (Hq : (if bytes_eqb prefix (bytes (str "30")) then Returns true
                  else Returns (bytes_eqb prefix (bytes (str "31"))))
                 = Returns true).
    { destruct Hqr as [-> | ->]; reflexivity. }
    rewrite Hq. cbn [bind].
    destruct (PaymentReference.Number (Payload.Reference p)) as [|d|d|ty];
      cbn [Payload.isNil Payload.isReferenceNumber negb]; try discriminate.
    + split; [split; [discriminate | intros [d H]; discriminate H] |].
      intros _. eexists. reflexivity.
    + split; [split; [intros _; now exists d | reflexivity] |].
      intros Hn. exfalso. apply Hn. now exists d.
    + split; [split; [discriminate | intros [d' H]; discriminate H] |].
      intros _. eexists. reflexivity.
  - intros H30 H31.
    apply bytes_eqb_neq in H30. apply bytes_eqb_neq in H31.
    rewrite H30. cbn [bind]. rewrite H31.
    destruct (PaymentReference.Number (Payload.Reference p)) as [|d|d|ty];
      cbn [Payload.isNil Payload.isReferenceNumber negb andb]; try discriminate.
    + split; [intros [d H]; discriminate H | reflexivity].
    + split; [intros _; eexists; reflexivity |].
      intros [H | [d' H]]; discriminate H.
    + split; [intros [d' H]; discriminate H | reflexivity].
Qed.

Lemma minimalPayload_other_rules (iban : IBAN.t) (ref : Printer) :
  IBAN.CountryCode iban = str "CH" ->
  PaymentReference.Validate {| PaymentReference.Number := ref |} = None ->
  otherRulesHold (minimalPayload (Some iban) ref).
Proof.
  intros Hcc Hr. unfold otherRulesHold, minimalPayload; cbn -[str].
  unfold AccountNumber.Validate; cbn -[str]. rewrite Hcc.
  repeat split; try (vm_compute; congruence). exact Hr.
Qed.

Lemma C1_reference_matches_account_witness :
  (Payload.Validate (minimalPayload (Some qrIBAN) (ReferenceNumber (str "210000000003139471430009017")))
   = Returns None)
  /\ fails (Payload.Validate (minimalPayload (Some qrIBAN) NoReference))
  /\ Payload.Validate (minimalPayload (Some ordinaryIBAN) (CreditorReference (str "RF8312345678912345678912")))
     = Returns None.
Proof.
  split; [| split].
  - destruct (C1_reference_matches_account
                (minimalPayload (Some qrIBAN)
                   (ReferenceNumber (str "210000000003139471430009017")))
                qrIBAN (bytes (str "31"))) as [Hqr _];
      [apply minimalPayload_other_rules; reflexivity | reflexivity
       | reflexivity |].
    apply Hqr; [now right | eexists; reflexivity].
  - destruct (C1_reference_matches_account
                (minimalPayload (Some qrIBAN) NoReference)
                qrIBAN (bytes (str "31"))) as [Hqr _];
      [apply minimalPayload_other_rules; reflexivity | reflexivity
       | reflexivity |].
    apply Hqr; [now right | intros [d H]; discriminate H].
  - destruct (C1_reference_matches_account
                (minimalPayload (Some ordinaryIBAN)
                   (CreditorReference (str "RF8312345678912345678912")))
                ordinaryIBAN (bytes (str "04"))) as [_ Hord];
      [apply minimalPayload_other_rules; reflexivity | reflexivity
       | reflexivity |].
    apply Hord; [vm_compute; congruence | vm_compute; congruence |].
    right. eexists. reflexivity.
Defined.

(** C7. [Validate] does not always return: for a payload that passes every
    earlier check and whose account carries an IBAN with a basic bank
    account number of fewer than two bytes, the slice [BBAN[:2]] panics. *)
Theorem C7_validate_panics_on_short_bban (p : Payload.t) (iban : IBAN.t) :
  otherRulesHold p ->
  AccountNumber.IBAN (Payload.Account p) = Some iban ->
  len (IBAN.BBAN iban) < 2 ->
  Payload.Validate p = Panics (PanicSliceBounds 2 (len (IBAN.BBAN iban))).
Proof.
  intros Hother Hiban Hlen.
  rewrite (Validate_other_rules p Hother).
  unfold Payload.validateReferenceForAccount, Payload.bbanPrefixIs, sliceTo.
  rewrite Hiban. unfold len in Hlen.
  assert (Hlt : (length (bytes (IBAN.BBAN iban)) <? 2)%nat = true).
  { apply Nat.ltb_lt. lia. }
  rewrite Hlt. reflexivity.
Qed.

Lemma C7_validate_panics_on_short_bban_witness :
  Payload.Validate (minimalPayload (Some bareIBAN) NoReference)
  = Panics (PanicSliceBounds 2 0).
Proof.
  apply (C7_validate_panics_on_short_bban _ bareIBAN).
  - apply minimalPayload_other_rules; reflexivity.
  - reflexivity.
  - vm_compute. reflexivity.
Defined.

(** ** The wire format *)

Lemma Join_cons (e : gostring) (rest : list gostring) (sep : gostring) :
  rest <> [] -> strings.Join (e :: rest) sep = e ++ sep ++ strings.Join rest sep.
Proof. destruct rest; [congruence | reflexivity]. Qed.

Lemma Join_app (xs ys : list gostring) (sep : gostring) :
  xs <> [] -> ys <> [] ->
  strings.Join (xs ++ ys) sep = strings.Join xs sep ++ sep ++ strings.Join ys sep.
Proof.
  intros Hxs Hys. induction xs as [|x xs IH]; [congruence |].
  destruct xs as [|x' xs].
  - cbn [app]. now rewrite Join_cons.
  - change ((x :: x' :: xs) ++ ys) with (x :: ((x' :: xs) ++ ys)).
    rewrite Join_cons by discriminate.
    rewrite IH by discriminate.
    rewrite (Join_cons x (x' :: xs)) by discriminate.
    now rewrite <- !app_assoc.
Qed.

Lemma Buffer_WriteString (b : Buffer) (s : gostring) :
  WriteString b s = (b ++ s, None).
Proof. reflexivity. Qed.

(** A valid entity is written as its seven fields. *)
Lemma Entity_Serialize_valid (e : Entity.t) (b : Buffer) :
  Entity.Validate e = None ->
  Entity.Serialize e b
  = Returns (b ++ strings.Join (Wire.entityFields e) CRLF, None).
Proof.
  unfold Entity.Validate, Entity.Serialize, Wire.entityFields.
  destruct (isEmpty (Entity.Name e)) eqn:Hname.
  - intros _. rewrite Buffer_WriteString. reflexivity.
  - rewrite andb_false_l.
    destruct (70 <? len (Entity.Name e)); [discriminate |].
    destruct (ValidateCharacterSet (Entity.Name e)); [discriminate |].
    destruct (isEmpty (Entity.CountryCode e)); [discriminate |].
    destruct (2 <? runeCount (Entity.CountryCode e)); [discriminate |].
    destruct (countryCodeFound (Entity.CountryCode e)); [| discriminate].
    cbn [negb].
    destruct (Entity.Address e) as [|ca|sa|ty]; try discriminate; intros _;
      cbn [Entity.serializeAddress bind];
      unfold CombinedAddress.Serialize, StructuredAddress.Serialize;
      rewrite !Buffer_WriteString; cbn [strings.Join];
      rewrite <- ?app_assoc; reflexivity.
Qed.

Lemma AlternativeProcedures_Serialize_valid
  (vec : AlternativeProcedures.t) (b : Buffer) :
  AlternativeProcedures.Validate vec = None ->
  AlternativeProcedures.Serialize vec b
  = Returns (b ++ strings.Join (Wire.procedureFields vec) CRLF, None).
Proof.
  unfold AlternativeProcedures.Validate.
  destruct vec as [|a1 [|a2 [|a3 rest]]]; try reflexivity.
  cbn [length Nat.ltb Nat.leb]. discriminate.
Qed.

Lemma PaymentReference_Serialize_valid (r : PaymentReference.t) (b : Buffer) :
  PaymentReference.Validate r = None ->
  PaymentReference.Serialize r b
  = (b ++ strings.Join (Wire.referenceFields r) CRLF, None).
Proof.
  unfold PaymentReference.Validate, PaymentReference.Serialize,
    Wire.referenceFields.
  destruct (PaymentReference.Number r); try discriminate; intros _;
    rewrite Buffer_WriteString; cbn [strings.Join];
    rewrite <- ?app_assoc, ?app_nil_r; reflexivity.
Qed.

Lemma PaymentAmount_Serialize_fields (pa : PaymentAmount.t) (b : Buffer) :
  PaymentAmount.Serialize pa b
  = (b ++ strings.Join (Wire.amountFields pa) CRLF, None).
Proof.
  unfold PaymentAmount.Serialize, Wire.amountFields.
  rewrite Buffer_WriteString. cbn [strings.Join app]. reflexivity.
Qed.

Lemma PaymentInformation_Serialize_fields (pi : PaymentInformation.t) (b : Buffer) :
  PaymentInformation.Serialize pi b
  = (b ++ strings.Join (Wire.informationFields pi) CRLF, None).
Proof.
  unfold PaymentInformation.Serialize, Wire.informationFields.
  rewrite Buffer_WriteString. cbn [strings.Join]. reflexivity.
Qed.

Lemma entityFields_nonempty (e : Entity.t) : Wire.entityFields e <> [].
Proof.
  unfold Wire.entityFields.
  destruct (isEmpty (Entity.Name e)); [discriminate |].
  destruct (Entity.Address e); discriminate.
Qed.

Lemma referenceFields_nonempty (r : PaymentReference.t) :
  Wire.referenceFields r <> [].
Proof.
  unfold Wire.referenceFields. destruct (PaymentReference.Number r); discriminate.
Qed.

(** A valid payload is written as its fields joined by CRLF. *)
Lemma Serialize_valid (p : Payload.t) (b : Buffer) :
  Payload.Validate p = Returns None ->
  Payload.Serialize p b = Returns (b ++ Wire.payload p, None).
Proof.
  intros Hvalid. unfold Payload.Serialize. rewrite Hvalid. cbn [bind].
  apply Validate_Returns_None in Hvalid.
  destruct Hvalid as [(Ha & Hc & Hu & _ & Hd & Hr & _ & Hp & _) _].
  unfold Wire.payload, Wire.fields.
  assert (Hne : forall A (x : A) (l l' : list A), x :: l ++ l' <> [])
    by discriminate.
  rewrite !Buffer_WriteString. cbn [fst].
  unfold AccountNumber.Validate in Ha. unfold AccountNumber.Serialize, Wire.accountCode.
  destruct (AccountNumber.IBAN (Payload.Account p)) as [iban|]; [| discriminate].
  rewrite !Buffer_WriteString. cbn [bind fst].
  rewrite (Entity_Serialize_valid _ _ Hc). cbn [bind fst].
  rewrite !Buffer_WriteString. cbn [fst].
  rewrite (Entity_Serialize_valid _ _ Hu). cbn [bind fst].
  rewrite !Buffer_WriteString, PaymentAmount_Serialize_fields. cbn [bind fst].
  rewrite !Buffer_WriteString. cbn [fst].
  rewrite (Entity_Serialize_valid _ _ Hd). cbn [bind fst].
  rewrite !Buffer_WriteString, (PaymentReference_Serialize_valid _ _ Hr).
  cbn [bind fst].
  rewrite !Buffer_WriteString, PaymentInformation_Serialize_fields.
  cbn [bind fst].
  rewrite !Buffer_WriteString. cbn [fst].
  rewrite (AlternativeProcedures_Serialize_valid _ _ Hp). cbn [bind].
  do 2 f_equal.
  pose proof (entityFields_nonempty (Payload.Creditor p)) as N1.
  pose proof (entityFields_nonempty (Payload.UltimateCreditor p)) as N2.
  pose proof (entityFields_nonempty (Payload.UltimateDebtor p)) as N3.
  pose proof (referenceFields_nonempty (Payload.Reference p)) as N4.
  rewrite (Join_app [_; _; _; _]) by
    (try discriminate; intros E; apply app_eq_nil in E; tauto).
  rewrite (Join_app (Wire.entityFields (Payload.Creditor p))) by
    (try assumption; intros E; apply app_eq_nil in E; tauto).
  rewrite (Join_app (Wire.entityFields (Payload.UltimateCreditor p))) by
    (try assumption; discriminate).
  rewrite (Join_app (Wire.amountFields _)) by
    (try discriminate; intros E; apply app_eq_nil in E; tauto).
  rewrite (Join_app (Wire.entityFields (Payload.UltimateDebtor p))) by
    (try assumption; intros E; apply app_eq_nil in E; tauto).
  rewrite (Join_app (Wire.referenceFields _)) by
    (try assumption; discriminate).
  rewrite (Join_app (Wire.informationFields _)) by discriminate.
  cbn [strings.Join].
  rewrite <- !app_assoc. reflexivity.
Qed.

(** C2, as stated, fails: [Serialize] runs [Validate] and hands back its
    failure.  For the zero payload, which has no account, it returns "No
    account specified" and writes nothing. *)
Lemma C2_serialize_returns_validation_failure :
  Payload.Validate zeroPayload = Returns (Some ErrNoAccount)
  /\ Payload.Serialize zeroPayload ([] : Buffer) = Returns ([], Some ErrNoAccount).
Proof. split; reflexivity. Qed.

(** C2, amended. [Serialize] validates the payload before it writes:
    whatever the writer, a validation failure is returned as it is and
    nothing is written.  A payload that passes validation is written to a
    buffer as a function of its fields alone: the fields of the wire
    format, joined by CRLF, with no error. *)
Theorem C2_serialize_validates_first (p : Payload.t) :
  (forall W (HW : Writer W) (w : W) (e : error),
      Payload.Validate p = Returns (Some e) ->
      Payload.Serialize p w = Returns (w, Some e))
  /\ (forall b : Buffer,
      Payload.Validate p = Returns None ->
      Payload.Serialize p b = Returns (b ++ Wire.payload p, None)).
Proof.
  split.
  - intros W HW w e Hv. unfold Payload.Serialize. now rewrite Hv.
  - intros b. apply Serialize_valid.
Qed.

Lemma C2_serialize_validates_first_witness :
  Payload.Serialize zeroPayload ([] : Buffer) = Returns ([], Some ErrNoAccount)
  /\ Payload.Serialize minimalCorrectPayload ([] : Buffer)
     = Returns (Wire.payload minimalCorrectPayload, None).
Proof.
  split.
  - apply (proj1 (C2_serialize_validates_first zeroPayload)). reflexivity.
  - apply (proj2 (C2_serialize_validates_first minimalCorrectPayload) []).
    vm_compute. reflexivity.
Defined.

(** ** Widths in float64 *)

(** Adding to [0.0] changes no comparison. *)
Lemma f64_gt_add_zero (y m : float64) :
  f64_gt (f64_add f64_zero y) m = f64_gt y m.
Proof.
  destruct y as [s | s | | s my ey]; try destruct s;
    destruct m as [t | t | | t mm em]; try destruct t; reflexivity.
Qed.

Lemma SFcompare_antisym (x y : float64) :
  SFcompare y x = match SFcompare x y with
                  | Some c => Some (CompOpp c)
                  | None => None
                  end.
Proof.
  destruct x as [s | s | | s mx ex]; try destruct s;
    destruct y as [t | t | | t my ey]; try destruct t; try reflexivity;
    cbn [SFcompare]; rewrite (Z.compare_antisym ex ey);
    destruct (ex ?= ey)%Z; cbn [CompOpp]; try reflexivity;
    rewrite (Pos.compare_cont_antisym mx my Eq); cbn [CompOpp];
    now rewrite ?CompOpp_involutive.
Qed.

(** [x < y] excludes [x > y]. *)
Lemma f64_lt_not_gt (x y : float64) : f64_lt x y = true -> f64_gt x y = false.
Proof.
  unfold f64_lt, f64_gt, SFltb. rewrite (SFcompare_antisym x y).
  destruct (SFcompare x y) as [[| |]|]; cbn [CompOpp]; congruence.
Qed.

(** The loop of [stringWidth] adds the width of the last rune last. *)
Lemma stringWidth_snoc (s : gostring) (r : rune) :
  stringWidth (s ++ [r]) = f64_add (stringWidth s) (runeWidth r).
Proof.
  unfold stringWidth, runeWidth. rewrite fold_left_app. cbn [fold_left].
  destruct (lookupWX r); reflexivity.
Qed.

Lemma stringWidth_sumsTo (s : gostring) : sumsTo s (stringWidth s).
Proof.
  induction s as [|r s IH] using rev_ind.
  - apply sums_nil.
  - rewrite stringWidth_snoc. apply sums_app; [exact IH | apply sums_rune].
Qed.

Lemma spaceWidth_space : spaceWidth = runeWidth space.
Proof. reflexivity. Qed.

(** ** Shortening a line *)

Lemma snoc_split (A : Type) (s pre post : list A) (r x : A) :
  s ++ [r] = pre ++ x :: post ->
  (post = [] /\ pre = s /\ x = r)
  \/ exists post', post = post' ++ [r] /\ s = pre ++ x :: post'.
Proof.
  intros H. destruct post as [|y post] using rev_ind.
  - left. apply app_inj_tail in H. destruct H. auto.
  - right. exists post.
    change (pre ++ x :: post ++ [y]) with (pre ++ (x :: post) ++ [y]) in H.
    rewrite app_assoc in H. apply app_inj_tail in H.
    destruct H as [H ->]. auto.
Qed.

Section Shorten.

Variables (maxWidth : float64) (line : gostring).

Lemma shortenLoop_first_overflow (rest shortened : gostring) :
  quiet maxWidth shortened ->
  (shortenLoop rest (stringWidth ellipsis) maxWidth shortened
               (stringWidth shortened) line = line
   /\ quiet maxWidth (shortened ++ rest))
  \/ exists pre r post,
       shortened ++ rest = pre ++ r :: post
       /\ overflowsAt maxWidth pre r = true
       /\ quiet maxWidth pre
       /\ shortenLoop rest (stringWidth ellipsis) maxWidth shortened
                      (stringWidth shortened) line = pre ++ ellipsis.
Proof.
  revert shortened.
  induction rest as [|r rest IH]; intros shortened Hquiet; cbn [shortenLoop].
  - left. rewrite app_nil_r. split; [reflexivity | exact Hquiet].
  - fold (overflowsAt maxWidth shortened r).
    destruct (overflowsAt maxWidth shortened r) eqn:Hr.
    + right. exists shortened, r, rest. repeat split; assumption.
    + rewrite <- stringWidth_snoc.
      assert (Hquiet' : quiet maxWidth (shortened ++ [r])).
      { intros pre x post Hsplit.
        destruct (snoc_split _ _ _ _ _ _ Hsplit)
          as [(_ & -> & ->) | (post' & _ & Hs)]; [exact Hr |].
        now apply (Hquiet pre x post'). }
      specialize (IH (shortened ++ [r]) Hquiet').
      rewrite <- app_assoc in IH. exact IH.
Qed.

End Shorten.
(** C6, as stated, fails.  The line "a" (0.556) is narrower than 1.0, yet
    shortening it to 1.0 gives the ellipsis alone, because the width of the
    ellipsis (1.0) is reserved from the first rune on.  And the result can
    be wider than the maximum width although the ellipsis fits: "rla"
    shortened to 1.555 is "rl…", whose width, measured by [stringWidth], is
    1.5550000000000002. *)
Lemma C6_narrow_line_is_shortened :
  (f64_le (stringWidth (str "a")) (f64_of_Z 1) = true
   /\ shortenToWidth (str "a") (f64_of_Z 1) = ellipsis
   /\ shortenToWidth (str "a") (f64_of_Z 1) <> str "a")
  /\ (f64_le (stringWidth ellipsis) (f64_of_ratio 1555 1000) = true
      /\ shortenToWidth (str "rla") (f64_of_ratio 1555 1000) = str "rl" ++ ellipsis
      /\ f64_gt (stringWidth (shortenToWidth (str "rla") (f64_of_ratio 1555 1000)))
                (f64_of_ratio 1555 1000) = true).
Proof.
  repeat split; try (vm_compute; congruence).
Qed.

(** C6, amended. [shortenToWidth] walks the line rune by rune, adding the
    widths in float64, and stops at the first rune for which the width of
    the runes before it, plus the width of the ellipsis, plus the width of
    the rune itself, is more than the maximum width.  If there is no such
    rune it returns the line unchanged; otherwise it returns the strict
    prefix that ends before that rune, with the ellipsis appended. *)
Theorem C6_shorten_to_width (s : gostring) (w : float64) :
  (shortenToWidth s w = s /\ quiet w s)
  \/ exists pre r post,
       s = pre ++ r :: post
       /\ overflowsAt w pre r = true
       /\ quiet w pre
       /\ shortenToWidth s w = pre ++ ellipsis.
Proof.
  unfold shortenToWidth.
  change f64_zero with (stringWidth []).
  apply (shortenLoop_first_overflow w s s []).
  intros pre r post H. destruct pre; discriminate H.
Qed.

Lemma C6_shorten_to_width_witness :
  exists pre r post,
    str "riger" = pre ++ r :: post
    /\ shortenToWidth (str "riger") (f64_of_Z 3) = pre ++ ellipsis.
Proof.
  destruct (C6_shorten_to_width (str "riger") (f64_of_Z 3))
    as [[Hsame _] | (pre & r & post & Hsplit & _ & _ & Hcut)].
  - vm_compute in Hsame. discriminate Hsame.
  - exists pre, r, post. split; assumption.
Defined.

(** ** Fields *)

Lemma fieldsFrom_nonempty (word s : gostring) :
  Forall (fun w => w <> []) (strings.fieldsFrom word s).
Proof.
  revert word. induction s as [|r s IH]; intros word; cbn [strings.fieldsFrom].
  - destruct word; repeat constructor. discriminate.
  - destruct (strings.isSpace r); [| apply IH].
    destruct word; [apply IH |]. constructor; [discriminate | apply IH].
Qed.

Lemma Fields_nonempty (s : gostring) :
  Forall (fun w => w <> []) (strings.Fields s).
Proof. apply fieldsFrom_nonempty. Qed.

Lemma fieldsFrom_runes (word s w : gostring) (r : rune) :
  In w (strings.fieldsFrom word s) -> In r w -> In r word \/ In r s.
Proof.
  revert word. induction s as [|x s IH]; intros word Hw Hr;
    cbn [strings.fieldsFrom] in Hw.
  - destruct word; [contradiction |].
    destruct Hw as [<- | []]. now left.
  - destruct (strings.isSpace x).
    + destruct word as [|c word].
      * destruct (IH [] Hw Hr) as [[] | H]. right. now right.
      * destruct Hw as [<- | Hw]; [now left |].
        destruct (IH [] Hw Hr) as [[] | H]. right. now right.
    + destruct (IH _ Hw Hr) as [H | H].
      * apply in_app_or in H. destruct H as [H | [<- | []]];
          [now left | right; now left].
      * right. now right.
Qed.

Lemma Fields_runes (s w : gostring) (r : rune) :
  In w (strings.Fields s) -> In r w -> In r s.
Proof.
  intros Hw Hr. destruct (fieldsFrom_runes [] s w r Hw Hr) as [[] | H].
  exact H.
Qed.

(** ** Reflow: the lines emitted earlier are carried along unchanged *)

Section Reflow.

Variable maxWidth : float64.

Lemma reflowRune_prepend (pre : list gostring) (st : reflowState) (r : rune) :
  reflowRune maxWidth (prepend pre st) r = prepend pre (reflowRune maxWidth st r).
Proof.
  unfold reflowRune, prepend, flush; cbn.
  destruct (f64_gt (f64_add (currentWidth st) (runeWidth r)) maxWidth); cbn;
    now rewrite <- ?app_assoc.
Qed.

Lemma reflowRunes_prepend (pre : list gostring) (word : gostring) (st : reflowState) :
  fold_left (reflowRune maxWidth) word (prepend pre st)
  = prepend pre (fold_left (reflowRune maxWidth) word st).
Proof.
  revert st. induction word as [|r word IH]; intros st; cbn [fold_left].
  - reflexivity.
  - now rewrite reflowRune_prepend, IH.
Qed.

Lemma reflowWord_prepend (pre : list gostring) (st : reflowState) (word : gostring) :
  reflowWord maxWidth spaceWidth (prepend pre st) word
  = prepend pre (reflowWord maxWidth spaceWidth st word).
Proof.
  unfold reflowWord.
  destruct (f64_gt (stringWidth word) maxWidth).
  - cbn [prepend currentLine].
    destruct (negb (isEmpty (currentLine st))).
    + change (addSpace spaceWidth (prepend pre st))
        with (prepend pre (addSpace spaceWidth st)).
      apply reflowRunes_prepend.
    + apply reflowRunes_prepend.
  - cbn [prepend currentLine currentWidth].
    destruct (negb (isEmpty (currentLine st))); [| reflexivity].
    destruct (f64_gt (f64_add (f64_add (currentWidth st) spaceWidth) (stringWidth word))
                     maxWidth).
    + unfold flush, prepend; cbn. now rewrite <- app_assoc.
    + reflexivity.
Qed.

Lemma reflowWords_prepend (pre : list gostring) (words : list gostring)
  (st : reflowState) :
  fold_left (reflowWord maxWidth spaceWidth) words (prepend pre st)
  = prepend pre (fold_left (reflowWord maxWidth spaceWidth) words st).
Proof.
  revert st. induction words as [|word words IH]; intros st; cbn [fold_left].
  - reflexivity.
  - now rewrite reflowWord_prepend, IH.
Qed.

(** The lines that [reflowAtSpace] emits for one line. *)
Lemma reflowAtSpace_one (line : gostring) :
  reflowAtSpace [line] maxWidth
  = if f64_lt (stringWidth line) maxWidth then [line]
    else
      let st := fold_left (reflowWord maxWidth spaceWidth)
                          (strings.Fields line) (startLine []) in
      reflowed st ++ [currentLine st].
Proof. reflexivity. Qed.

Lemma reflowAtSpace_from (lines : list gostring) (emitted : list gostring) :
  fold_left (fun emitted line =>
    if f64_lt (stringWidth line) maxWidth then emitted ++ [line]
    else
      let st := fold_left (reflowWord maxWidth spaceWidth)
                          (strings.Fields line) (startLine emitted) in
      reflowed st ++ [currentLine st]) lines emitted
  = emitted ++ flat_map (fun line => reflowAtSpace [line] maxWidth) lines.
Proof.
  revert emitted. induction lines as [|line lines IH]; intros emitted;
    cbn [fold_left flat_map].
  - now rewrite app_nil_r.
  - rewrite IH, reflowAtSpace_one, app_assoc. f_equal.
    destruct (f64_lt (stringWidth line) maxWidth); [reflexivity |].
    cbv zeta.
    replace (startLine emitted) with (prepend emitted (startLine []))
      by (unfold prepend, startLine; cbn; now rewrite app_nil_r).
    rewrite reflowWords_prepend. cbn [prepend reflowed currentLine].
    now rewrite app_assoc.
Qed.

Lemma reflowAtSpace_flat_map (lines : list gostring) :
  reflowAtSpace lines maxWidth
  = flat_map (fun line => reflowAtSpace [line] maxWidth) lines.
Proof. unfold reflowAtSpace at 1. now rewrite reflowAtSpace_from. Qed.

End Reflow.

(** ** Reflow: the text is kept *)

Lemma glue_snoc (ls seps : list gostring) (l s : gostring) :
  length seps = length ls ->
  glue (ls ++ [l]) (seps ++ [s]) = glue ls seps ++ l ++ s.
Proof.
  revert seps. induction ls as [|x ls IH]; intros [|y seps] Hlen;
    try discriminate; cbn [app glue].
  - now rewrite app_nil_r.
  - injection Hlen as Hlen. rewrite IH by assumption.
    now rewrite <- !app_assoc.
Qed.

Lemma rejoin_glue (ls seps : list gostring) (l : gostring) :
  length seps = length ls ->
  rejoin (ls ++ [l]) seps = glue ls seps ++ l.
Proof.
  revert seps. induction ls as [|x ls IH]; intros [|y seps] Hlen;
    try discriminate; cbn [app glue rejoin].
  - now rewrite app_nil_r.
  - injection Hlen as Hlen. rewrite IH by assumption.
    now rewrite <- !app_assoc.
Qed.

Lemma Join_snoc (done : list gostring) (word sep : gostring) :
  done <> [] ->
  strings.Join (done ++ [word]) sep = strings.Join done sep ++ sep ++ word.
Proof. intros Hne. now rewrite Join_app by (assumption || discriminate). Qed.

Section ReflowText.

Variable maxWidth : float64.

Lemma reflowRune_text (st : reflowState) (seps : list gostring) (r : rune) :
  separatorsFor st seps ->
  exists seps',
    separatorsFor (reflowRune maxWidth st r) seps'
    /\ textOf (reflowRune maxWidth st r) seps' = textOf st seps ++ [r]
    /\ currentLine (reflowRune maxWidth st r) <> [].
Proof.
  intros [Hlen Hsep]. unfold reflowRune, textOf, separatorsFor.
  destruct (f64_gt (f64_add (currentWidth st) (runeWidth r)) maxWidth).
  - exists (seps ++ [[]]). cbn [flush reflowed currentLine].
    repeat split.
    + rewrite !length_app. cbn. lia.
    + apply Forall_app. split; [assumption |].
      constructor; [now right | constructor].
    + rewrite glue_snoc by assumption. now rewrite <- !app_assoc.
    + discriminate.
  - exists seps. cbn [reflowed currentLine]. repeat split; try assumption.
    + now rewrite app_assoc.
    + intros E. apply app_eq_nil in E. destruct E. discriminate.
Qed.

Lemma reflowRunes_text (word : gostring) (st : reflowState) (seps : list gostring) :
  separatorsFor st seps ->
  exists seps',
    separatorsFor (fold_left (reflowRune maxWidth) word st) seps'
    /\ textOf (fold_left (reflowRune maxWidth) word st) seps'
       = textOf st seps ++ word
    /\ (word <> [] ->
        currentLine (fold_left (reflowRune maxWidth) word st) <> []).
Proof.
  revert st seps.
  induction word as [|r word IH]; intros st seps Hsep; cbn [fold_left].
  - exists seps. rewrite app_nil_r. repeat split; try apply Hsep. congruence.
  - destruct (reflowRune_text st seps r Hsep) as (seps1 & Hsep1 & Htext1 & Hne1).
    destruct (IH _ _ Hsep1) as (seps2 & Hsep2 & Htext2 & Hne2).
    exists seps2. split; [assumption |]. split.
    + rewrite Htext2, Htext1. now rewrite <- app_assoc.
    + intros _. destruct word as [|r' word]; [exact Hne1 |].
      apply Hne2. discriminate.
Qed.

Lemma keepsText_first (st : reflowState) (seps : list gostring) :
  textOf st seps = [] -> currentLine st = [] /\ glue (reflowed st) seps = [].
Proof. unfold textOf. intros E. apply app_eq_nil in E. tauto. Qed.

Lemma reflowWord_text (st : reflowState) (done : list gostring) (word : gostring) :
  word <> [] ->
  keepsText st done ->
  keepsText (reflowWord maxWidth spaceWidth st word) (done ++ [word]).
Proof.
  intros Hword (seps & Hsep & Htext & Hcur).
  assert (Hdone : forall l : list gostring, l ++ [word] <> []).
  { intros l E. apply app_eq_nil in E. destruct E. discriminate. }
  unfold keepsText, reflowWord.
  destruct done as [|d done].
  - (* the first word *)
    cbn [strings.Join] in Htext.
    destruct (keepsText_first st seps Htext) as [Hline Hglue].
    rewrite Hline. cbn [isEmpty negb app strings.Join].
    destruct (f64_gt (stringWidth word) maxWidth).
    + destruct (reflowRunes_text word st seps Hsep) as (seps' & Hsep' & Ht & Hne).
      exists seps'. split; [assumption |]. split.
      * rewrite Ht, Htext. reflexivity.
      * intros _. now apply Hne.
    + exists seps. unfold textOf, separatorsFor in *.
      cbn [reflowed currentLine]. rewrite Hline, Hglue. cbn [app].
      repeat split; try apply Hsep. now intros _.
  - (* a later word: the current line is not empty *)
    assert (Hline : isEmpty (currentLine st) = false).
    { apply isEmpty_false. apply Hcur. discriminate. }
    rewrite Hline. cbn [negb].
    rewrite Join_snoc by discriminate. rewrite <- Htext.
    destruct (f64_gt (stringWidth word) maxWidth).
    + destruct (reflowRunes_text word (addSpace spaceWidth st) seps)
        as (seps' & Hsep' & Ht & Hne); [exact Hsep |].
      exists seps'. split; [assumption |]. split.
      * rewrite Ht. unfold textOf. cbn [addSpace reflowed currentLine].
        now rewrite <- !app_assoc.
      * intros _. now apply Hne.
    + destruct (f64_gt (f64_add (f64_add (currentWidth st) spaceWidth)
                              (stringWidth word)) maxWidth).
      * exists (seps ++ [[space]]). destruct Hsep as [Hlen Hall].
        unfold textOf, separatorsFor. cbn [flush reflowed currentLine app].
        repeat split.
        -- rewrite !length_app. cbn. lia.
        -- apply Forall_app. split; [assumption |].
           constructor; [now left | constructor].
        -- rewrite glue_snoc by assumption. now rewrite <- !app_assoc.
        -- now intros _.
      * exists seps. unfold textOf. cbn [addSpace reflowed currentLine].
        split; [exact Hsep |]. split.
        -- now rewrite <- !app_assoc.
        -- intros _ E. apply app_eq_nil in E. destruct E. contradiction.
Qed.

Lemma reflowWords_text (words : list gostring) (st : reflowState)
  (done : list gostring) :
  Forall (fun w => w <> []) words ->
  keepsText st done ->
  keepsText (fold_left (reflowWord maxWidth spaceWidth) words st) (done ++ words).
Proof.
  revert st done.
  induction words as [|word words IH]; intros st done Hwords Hst;
    cbn [fold_left].
  - now rewrite app_nil_r.
  - inversion Hwords as [|? ? Hword Hrest]; subst.
    change (word :: words) with ([word] ++ words). rewrite app_assoc.
    apply IH; [assumption |]. now apply reflowWord_text.
Qed.

Lemma keepsText_start : keepsText (startLine []) [].
Proof.
  exists []. repeat split; try constructor. congruence.
Qed.

End ReflowText.

(** ** Reflow: the width of the lines *)

Section ReflowWidth.

Variable maxWidth : float64.

Lemma wordsInv_runesInv (st : reflowState) :
  wordsInv maxWidth st -> runesInv maxWidth st.
Proof.
  intros (Hsum & Hle & _ & Hall). repeat split; try assumption. now right.
Qed.

Lemma runesInv_lineOK (st : reflowState) :
  runesInv maxWidth st -> lineOK maxWidth (currentLine st).
Proof.
  intros (Hsum & [Hend | Hle] & _); [now left | right].
  now exists (currentWidth st).
Qed.

Lemma reflowRune_width (st : reflowState) (r : rune) :
  f64_gt (runeWidth r) maxWidth = false ->
  runesInv maxWidth st -> wordsInv maxWidth (reflowRune maxWidth st r).
Proof.
  intros Hr Hst. pose proof (runesInv_lineOK st Hst) as Hline.
  destruct Hst as (Hsum & _ & Hall). unfold reflowRune, wordsInv.
  destruct (f64_gt (f64_add (currentWidth st) (runeWidth r)) maxWidth) eqn:Hgt.
  - cbn [flush reflowed currentLine currentWidth].
    split; [| split; [| split]].
    + apply (sums_app [] [r]); [apply sums_nil | apply sums_rune].
    + now rewrite f64_gt_add_zero.
    + discriminate.
    + apply Forall_app. split; [assumption |]. now constructor.
  - cbn [reflowed currentLine currentWidth].
    split; [| split; [| split]].
    + apply sums_app; [assumption | apply sums_rune].
    + exact Hgt.
    + intros E. apply app_eq_nil in E. destruct E. discriminate.
    + assumption.
Qed.

Lemma reflowRunes_width (word : gostring) (st : reflowState) :
  Forall (fun r => f64_gt (runeWidth r) maxWidth = false) word ->
  word <> [] ->
  runesInv maxWidth st ->
  wordsInv maxWidth (fold_left (reflowRune maxWidth) word st).
Proof.
  revert st. induction word as [|r word IH]; intros st Hfit Hne Hst;
    [congruence |].
  inversion Hfit as [|? ? Hr Hrest]; subst. cbn [fold_left].
  pose proof (reflowRune_width st r Hr Hst) as Hst'.
  destruct word as [|r' word]; [exact Hst' |].
  apply IH; [assumption | discriminate | now apply wordsInv_runesInv].
Qed.

Lemma reflowWord_width (st : reflowState) (word : gostring) :
  Forall (fun r => f64_gt (runeWidth r) maxWidth = false) word ->
  word <> [] ->
  wordsInv maxWidth st ->
  wordsInv maxWidth (reflowWord maxWidth spaceWidth st word).
Proof.
  intros Hfit Hne (Hsum & Hle & Hzero & Hall). unfold reflowWord.
  destruct (f64_gt (stringWidth word) maxWidth) eqn:Hlong.
  - apply reflowRunes_width; try assumption.
    destruct (isEmpty (currentLine st)); cbn [negb].
    + apply wordsInv_runesInv. now repeat split.
    + unfold runesInv. cbn [addSpace reflowed currentLine currentWidth].
      split; [| split].
      * apply sums_app; [assumption |].
        rewrite spaceWidth_space. apply sums_rune.
      * left. now exists (currentLine st).
      * assumption.
  - destruct (isEmpty (currentLine st)) eqn:Hempty; cbn [negb].
    + apply isEmpty_true in Hempty. unfold wordsInv.
      cbn [reflowed currentLine currentWidth].
      rewrite (Hzero Hempty), Hempty. cbn [app].
      split; [| split; [| split]].
      * apply (sums_app [] word); [apply sums_nil | apply stringWidth_sumsTo].
      * now rewrite f64_gt_add_zero.
      * intros E. contradiction.
      * assumption.
    + destruct (f64_gt (f64_add (f64_add (currentWidth st) spaceWidth)
                                (stringWidth word)) maxWidth) eqn:Hbreak.
      * unfold wordsInv. cbn [flush reflowed currentLine currentWidth app].
        split; [| split; [| split]].
        -- apply (sums_app [] word); [apply sums_nil | apply stringWidth_sumsTo].
        -- now rewrite f64_gt_add_zero.
        -- intros E. contradiction.
        -- apply Forall_app. split; [assumption |].
           constructor; [| constructor]. right. now exists (currentWidth st).
      * unfold wordsInv. cbn [addSpace reflowed currentLine currentWidth].
        split; [| split; [| split]].
        -- apply sums_app; [| apply stringWidth_sumsTo].
           apply sums_app; [assumption |].
           rewrite spaceWidth_space. apply sums_rune.
        -- exact Hbreak.
        -- intros E. apply app_eq_nil in E. destruct E. contradiction.
        -- assumption.
Qed.

Lemma reflowWords_width (words : list gostring) (st : reflowState) :
  Forall (fun w => Forall (fun r => f64_gt (runeWidth r) maxWidth = false) w
                   /\ w <> []) words ->
  wordsInv maxWidth st ->
  wordsInv maxWidth (fold_left (reflowWord maxWidth spaceWidth) words st).
Proof.
  revert st. induction words as [|word words IH]; intros st Hwords Hst;
    cbn [fold_left]; [assumption |].
  inversion Hwords as [|? ? [Hfit Hne] Hrest]; subst.
  apply IH; [assumption |]. now apply reflowWord_width.
Qed.

Lemma wordsInv_start :
  f64_gt maxWidth f64_zero = true -> wordsInv maxWidth (startLine []).
Proof.
  intros Hpos. unfold wordsInv, startLine.
  cbn [reflowed currentLine currentWidth].
  split; [apply sums_nil | split; [| split; [reflexivity | constructor]]].
  now apply (f64_lt_not_gt f64_zero maxWidth).
Qed.

End ReflowWidth.

(** Every line emitted for [line] is within the width, as the loops add it
    up, unless it ends in a space, as long as no rune of [line] is wider
    than the width. *)
Lemma reflowAtSpace_one_width (line : gostring) (maxWidth : float64) :
  f64_gt maxWidth f64_zero = true ->
  (forall r, In r line -> f64_gt (runeWidth r) maxWidth = false) ->
  Forall (lineOK maxWidth) (reflowAtSpace [line] maxWidth).
Proof.
  intros Hpos Hfit. rewrite reflowAtSpace_one.
  destruct (f64_lt (stringWidth line) maxWidth) eqn:Hfast.
  - constructor; [| constructor]. right. exists (stringWidth line).
    split; [apply stringWidth_sumsTo | now apply f64_lt_not_gt].
  - cbv zeta.
    pose proof (wordsInv_start maxWidth Hpos) as Hstart.
    assert (Hwords : Forall (fun w => Forall (fun r => f64_gt (runeWidth r) maxWidth
                                                     = false) w
                                      /\ w <> []) (strings.Fields line)).
    { apply Forall_forall. intros w Hw. split.
      - apply Forall_forall. intros r Hr. apply Hfit.
        now apply (Fields_runes line w r).
      - pose proof (Fields_nonempty line) as Hne.
        rewrite Forall_forall in Hne. now apply Hne. }
    destruct (reflowWords_width maxWidth _ _ Hwords Hstart)
      as (Hsum & Hle & _ & Hall).
    apply Forall_app. split; [assumption |].
    constructor; [| constructor]. right. eexists. split; eassumption.
Qed.

(** The lines emitted for a line that is reflowed give back its words. *)
Lemma reflowAtSpace_one_text (line : gostring) (maxWidth : float64) :
  f64_lt (stringWidth line) maxWidth = false ->
  exists seps,
    length seps = pred (length (reflowAtSpace [line] maxWidth))
    /\ Forall isSeparator seps
    /\ rejoin (reflowAtSpace [line] maxWidth) seps
       = strings.Join (strings.Fields line) [space].
Proof.
  intros Hslow. rewrite reflowAtSpace_one, Hslow. cbv zeta.
  destruct (reflowWords_text maxWidth (strings.Fields line) (startLine []) []
              (Fields_nonempty line) (keepsText_start))
    as (seps & [Hlen Hsep] & Htext & _).
  exists seps. repeat split.
  - rewrite length_app, Hlen. cbn [length]. lia.
  - assumption.
  - rewrite rejoin_glue by assumption. exact Htext.
Qed.

(** C5, as stated, fails, in four ways.  A rune wider than the maximum
    width is emitted on a line of its own, which is too wide; the space put
    before an over-long word can push the line it ends over the width; a
    line packed from words can measure more than the maximum width, since
    [stringWidth] adds the same widths in another order than the packing
    loop ("u zkr" at 2.167 measures 2.1670000000000003); and a run of two
    spaces between words is not reproduced, whatever is put between the
    output lines. *)
Lemma C5_reflow_line_too_wide_or_text_changed :
  (f64_gt (f64_of_ratio 1 10) f64_zero = true
   /\ reflowAtSpace [str "a"] (f64_of_ratio 1 10) = [[]; str "a"]
   /\ f64_gt (stringWidth (str "a")) (f64_of_ratio 1 10) = true)
  /\ (reflowAtSpace [str "aaa bbbbbbbbbb"] (f64_of_ratio 18 10)
      = [str "aaa "; str "bbb"; str "bbb"; str "bbb"; str "b"]
      /\ f64_gt (stringWidth (str "aaa ")) (f64_of_ratio 18 10) = true)
  /\ (reflowAtSpace [str "u zkr"] (f64_of_ratio 2167 1000) = [str "u zkr"]
      /\ f64_gt (stringWidth (str "u zkr")) (f64_of_ratio 2167 1000) = true)
  /\ (reflowAtSpace [str "a  b"] (f64_of_Z 1) = [str "a"; str "b"]
      /\ forall seps, Forall isSeparator seps ->
           rejoin [str "a"; str "b"] seps <> str "a  b").
Proof.
  split; [| split; [| split]].
  - repeat split; vm_compute; reflexivity.
  - repeat split; vm_compute; reflexivity.
  - repeat split; vm_compute; reflexivity.
  - split; [vm_compute; reflexivity |].
    intros seps Hsep.
    destruct seps as [|s seps]; [vm_compute; congruence |].
    inversion Hsep as [|? ? Hs _]; subst.
    destruct Hs as [-> | ->]; destruct seps; vm_compute; congruence.
Qed.

(** C5, amended. [reflowAtSpace] treats each input line on its own.  A
    line whose width, measured by [stringWidth], is below the maximum width
    is emitted unchanged.  Any other line is emitted as lines that, put
    together again with a single space or nothing between consecutive
    lines, give the words of the input line, in order, separated by single
    spaces (the white space around and between the words is not kept).  If
    no rune of the input line is wider than the maximum width, every
    emitted line that does not end in a space is within the maximum width
    in the sense of the loops: the widths of its runes, added in float64 in
    reading order (rune by rune or word by word), give a sum that is not
    more than the maximum width.  The maximum width is positive
    throughout. *)
Theorem C5_reflow_at_space (lines : list gostring) (maxWidth : float64) :
  f64_gt maxWidth f64_zero = true ->
  reflowAtSpace lines maxWidth
  = flat_map (fun line => reflowAtSpace [line] maxWidth) lines
  /\ forall line,
       (f64_lt (stringWidth line) maxWidth = true ->
        reflowAtSpace [line] maxWidth = [line])
       /\ (f64_lt (stringWidth line) maxWidth = false ->
           exists seps,
             length seps = pred (length (reflowAtSpace [line] maxWidth))
             /\ Forall isSeparator seps
             /\ rejoin (reflowAtSpace [line] maxWidth) seps
                = strings.Join (strings.Fields line) [space])
       /\ ((forall r, In r line -> f64_gt (runeWidth r) maxWidth = false) ->
           forall l, In l (reflowAtSpace [line] maxWidth) ->
             ~ endsInSpace l ->
             exists w, sumsTo l w /\ f64_gt w maxWidth = false).
Proof.
  intros Hpos. split; [apply reflowAtSpace_flat_map |].
  intros line. split; [| split].
  - intros Hfast. now rewrite reflowAtSpace_one, Hfast.
  - apply reflowAtSpace_one_text.
  - intros Hfit l Hl Hend.
    pose proof (reflowAtSpace_one_width line maxWidth Hpos Hfit) as Hall.
    rewrite Forall_forall in Hall. destruct (Hall l Hl) as [H | H];
      [contradiction | exact H].
Qed.

Lemma C5_reflow_at_space_witness :
  reflowAtSpace [str "Lorem ipsum dolor sit amet,"; str "ab"] (f64_of_Z 5)
  = reflowAtSpace [str "Lorem ipsum dolor sit amet,"] (f64_of_Z 5)
    ++ reflowAtSpace [str "ab"] (f64_of_Z 5)
  /\ reflowAtSpace [str "ab"] (f64_of_Z 5) = [str "ab"]
  /\ (forall l,
        In l (reflowAtSpace [str "Lorem ipsum dolor sit amet,"] (f64_of_Z 5)) ->
        ~ endsInSpace l ->
        exists w, sumsTo l w /\ f64_gt w (f64_of_Z 5) = false).
Proof.
  assert (Hpos : f64_gt (f64_of_Z 5) f64_zero = true) by reflexivity.
  destruct (C5_reflow_at_space
              [str "Lorem ipsum dolor sit amet,"; str "ab"] (f64_of_Z 5) Hpos)
    as [Hflat Hline].
  split; [| split].
  - rewrite Hflat. cbn [flat_map]. now rewrite app_nil_r.
  - apply (proj1 (Hline (str "ab"))). vm_compute. reflexivity.
  - apply (proj2 (proj2 (Hline (str "Lorem ipsum dolor sit amet,")))).
    intros r Hr. vm_compute in Hr.
    repeat (destruct Hr as [<- | Hr]; [vm_compute; reflexivity |]).
    contradiction.
Defined.
